(** * Transcripto: the map-reduce summarization orchestrator

    A shallow embedding of [src/core/summarizer.py],
    [src/core/simple_summarizer.py] and [src/services/ollama_service.py],
    and the properties of the orchestration that the specification states.

    Conventions of the embedding:
    - a Python [str] is a [string]; one [ascii] stands for one code point
      below 256, so [String.length] is Python's [len];
    - a Python [int] is a [Z]; a Python [float] (clock readings, the
      compression ratio, the temperature) is kept as the exact rational [Q]
      that the float approximates;
    - a raised exception is a value of [Exc]; code that can raise returns
      an [Outcome];
    - everything outside the repository that the code talks to (the HTTP
      backend, the wall clock, the order in which concurrent requests
      complete) and the chunker, whose file is not part of the sources at
      hand, is read from an environment [Env] that the theorems quantify
      over. *)

From Stdlib Require Import ZArith QArith Ascii.
From stdpp Require Import base option list strings pretty.

Local Open Scope Z_scope.

(** [+:+] computes on literal prefixes; the prompts stay folded. *)
#[local] Arguments String.append !_ _ : simpl nomatch.

(** ** Python strings *)

Module Py.

(** [str.isspace] on one code point below 256: the characters that
    [str.strip()] and [str.split()] treat as whitespace. *)
Definition isspace (c : ascii) : bool :=
  let n := Ascii.nat_of_ascii c in
  (((9 <=? n) && (n <=? 13)) || ((28 <=? n) && (n <=? 32))
   || (n =? 133) || (n =? 160))%nat.

(** [s.lstrip()] *)
Fixpoint lstrip (s : string) : string :=
  match s with
  | EmptyString => EmptyString
  | String c r => if isspace c then lstrip r else s
  end.

(** [s.rstrip()] *)
Fixpoint rstrip (s : string) : string :=
  match s with
  | EmptyString => EmptyString
  | String c r =>
      match rstrip r with
      | EmptyString => if isspace c then EmptyString else String c EmptyString
      | r' => String c r'
      end
  end.

(** [s.strip()] *)
Definition strip (s : string) : string := rstrip (lstrip s).

(** Truthiness of a [str]: [bool(s)]. *)
Definition truthy (s : string) : bool :=
  match s with EmptyString => false | String _ _ => true end.

(** [len(s)] *)
Definition len (s : string) : Z := Z.of_nat (String.length s).

(** [len(s.split())]: the number of maximal runs of non-whitespace.
    [inword] tells whether the previous character was part of a word. *)
Fixpoint count_words_from (inword : bool) (s : string) : Z :=
  match s with
  | EmptyString => 0
  | String c r =>
      if isspace c then count_words_from false r
      else (if inword then 0 else 1) + count_words_from true r
  end.

Definition count_words (s : string) : Z := count_words_from false s.

(** [sep.join(parts)] *)
Fixpoint join (sep : string) (parts : list string) : string :=
  match parts with
  | [] => ""
  | [p] => p
  | p :: rest => p +:+ sep +:+ join sep rest
  end.

(** [str(n)] for an [int], as an f-string renders it. *)
Definition str_int (n : Z) : string := pretty n.

(** [needle in hay] *)
Fixpoint contains (needle hay : string) : bool :=
  String.prefix needle hay ||
  match hay with
  | EmptyString => false
  | String _ r => contains needle r
  end.

(** The newline character and the paragraph separator of the prompts. *)
Definition nl : string := String (Ascii.ascii_of_nat 10) EmptyString.

End Py.

(** ** Exceptions and outcomes *)

(** The exception classes that the [except] clauses of the code tell
    apart.  [PlainException] is [Exception(...)] itself, the class the
    service raises after wrapping. *)
Inductive ExcKind :=
  | RequestException   (* requests.exceptions.RequestException and subclasses *)
  | ClientError        (* aiohttp.ClientError and subclasses *)
  | JSONDecodeError    (* json.JSONDecodeError *)
  | TimeoutError       (* asyncio.TimeoutError *)
  | RuntimeError
  | AttributeError
  | TypeError
  | PlainException.

Record Exc := MkExc { exc_kind : ExcKind; exc_msg : string }.

(** [str(e)] *)
Definition str_exc (e : Exc) : string := exc_msg e.

Inductive Outcome (A : Type) :=
  | Ok (a : A)
  | Raise (e : Exc).
Arguments Ok {A} a.
Arguments Raise {A} e.

(** ** JSON values, as [response.json()] hands them to Python *)

#[local] Set Warnings "-register-all".

Inductive Json :=
  | JNull
  | JBool (b : bool)
  | JInt (n : Z)
  | JFloat (q : Q)
  | JStr (s : string)
  | JList (l : list Json)
  | JDict (fields : list (string * Json)).

(** The name Python prints for the type of a value. *)
Definition type_name (v : Json) : string :=
  match v with
  | JNull => "NoneType"
  | JBool _ => "bool"
  | JInt _ => "int"
  | JFloat _ => "float"
  | JStr _ => "str"
  | JList _ => "list"
  | JDict _ => "dict"
  end.

Definition no_attribute (v : Json) (attr : string) : Exc :=
  MkExc AttributeError
    ("'" +:+ type_name v +:+ "' object has no attribute '" +:+ attr +:+ "'").

(** Key lookup in a decoded JSON object, whose keys are distinct. *)
Fixpoint dict_lookup (k : string) (fields : list (string * Json)) : option Json :=
  match fields with
  | [] => None
  | (k', v) :: rest => if String.eqb k k' then Some v else dict_lookup k rest
  end.

(** [result.get(key, dflt)]: defined on a [dict] only. *)
Definition json_get (result : Json) (key : string) (dflt : Json) : Outcome Json :=
  match result with
  | JDict fields => Ok (default dflt (dict_lookup key fields))
  | _ => Raise (no_attribute result "get")
  end.

(** [result.get(key)], whose default is [None]. *)
Definition json_get_none (result : Json) (key : string) : Outcome Json :=
  json_get result key JNull.

(** [value.strip()]: defined on a [str] only. *)
Definition json_strip (v : Json) : Outcome string :=
  match v with
  | JStr s => Ok (Py.strip s)
  | _ => Raise (no_attribute v "strip")
  end.

(** ** The environment and the mutable world *)

(** [Config] of [src/utils/config.py], the fields the core reads. *)
Record Config := MkConfig {
  ollama_base_url : string;
  model_name : string;
  chunk_size : Z;
  chunk_overlap : Z;
  request_timeout : Z;
  temperature : Q
}.

Module TextChunk.
(** Modelled from the spec: [TextChunk] of [src/core/chunker.py], which is
    not among the sources; section 3 of the specification gives its fields.
    The summarizers read [content] only. *)
Record t := Make {
  content : string;
  index : Z;
  start_offset : Z;
  end_offset : Z
}.
End TextChunk.

(** The JSON payload that [generate_sync] and [generate_async] post to
    [/api/generate].  [system] is present only when a truthy
    [system_prompt] was given. *)
Record Payload := MkPayload {
  url : string;
  p_model : string;
  prompt : string;
  stream : bool;
  p_temperature : Q;
  num_predict : Z;
  system : option string
}.

(** What the HTTP layer does with one POST. *)
Inductive HttpOutcome :=
  | PostRaises (e : Exc)
      (* the POST itself raises: connection refused, timeout, ... *)
  | Reply (status : Z) (status_error : string) (body : Outcome Json).
      (* a reply arrives; [status_error] is the text of the error that
         [raise_for_status()] raises for it, [body] is what
         [response.json()] returns or raises *)

Record Env := MkEnv {
  config : Config;
  (* [self.chunker.chunk_by_sentences], built from [chunk_size] and
     [chunk_overlap]; its file is not among the sources *)
  chunk_by_sentences : string -> Outcome (list TextChunk.t);
  (* the fate of the [k]-th POST of the run *)
  backend : nat -> Payload -> HttpOutcome;
  (* the order in which the tasks of a gather complete, given the number
     of requests posted before the batch started *)
  completion_order : nat -> list nat;
  (* the [k]-th reading of [time.time()] *)
  wall_clock : nat -> Q
}.

(** [self.session] is [None], or an [aiohttp.ClientSession] that is open or
    has been closed. *)
Inductive Session := SessionOpen | SessionClosed.

Record World := MkWorld {
  posted : list Payload;          (* the requests sent so far, oldest first *)
  clock_reads : nat;              (* how often the clock has been read *)
  session : option Session        (* [self.ollama_service.session] *)
}.

(** A fresh service object: nothing sent, [self.session = None]. *)
Definition fresh : World := MkWorld [] 0 None.

Definition set_session (s : option Session) (w : World) : World :=
  MkWorld (posted w) (clock_reads w) s.

(** ** Computations that read and change the world and may raise *)

Definition M (A : Type) : Type := World -> Outcome A * World.

Definition ret {A} (a : A) : M A := fun w => (Ok a, w).

Definition raise {A} (e : Exc) : M A := fun w => (Raise e, w).

Definition bind {A B} (m : M A) (k : A -> M B) : M B :=
  fun w =>
    match m w with
    | (Ok a, w') => k a w'
    | (Raise e, w') => (Raise e, w')
    end.

(** [try: body  except Exception as e: handler(e)] *)
Definition try_except {A} (body : M A) (handler : Exc -> M A) : M A :=
  fun w =>
    match body w with
    | (Ok a, w') => (Ok a, w')
    | (Raise e, w') => handler e w'
    end.

(** [try: body  finally: cleanup] *)
Definition finally {A} (body : M A) (cleanup : M unit) : M A :=
  fun w =>
    match body w with
    | (r, w') =>
        match cleanup w' with
        | (Ok _, w'') => (r, w'')
        | (Raise e, w'') => (Raise e, w'')
        end
    end.

Definition lift {A} (o : Outcome A) : M A := fun w => (o, w).

Notation "x <- m ;; k" := (bind m (fun x => k))
  (at level 100, m at next level, right associativity).
Notation "m ;;; k" := (bind m (fun _ => k))
  (at level 100, right associativity).

(** [time.time()] *)
Definition time_time (env : Env) : M Q :=
  fun w =>
    (Ok (wall_clock env (clock_reads w)),
     MkWorld (posted w) (S (clock_reads w)) (session w)).

(** The number of backend generation requests a world has seen. *)
Definition calls (w : World) : nat := length (posted w).

(** ** [src/services/ollama_service.py] *)

Module OllamaResponse.
(** The dataclass [OllamaResponse].  Python does not check the declared
    field types, so every field holds whatever JSON value the body had. *)
Record t := Make {
  content : Json;
  model : Json;
  total_duration : Json;
  load_duration : Json;
  prompt_eval_count : Json;
  eval_count : Json
}.
End OllamaResponse.

Module OllamaService.

(** [base_url.rstrip('/')] of [__init__]. *)
Fixpoint rstrip_slash (s : string) : string :=
  match s with
  | EmptyString => EmptyString
  | String c r =>
      match rstrip_slash r with
      | EmptyString =>
          if Ascii.eqb c "/"%char then EmptyString else String c EmptyString
      | r' => String c r'
      end
  end.

Definition base_url (env : Env) : string :=
  rstrip_slash (ollama_base_url (config env)).

(** [self.model] *)
Definition model (env : Env) : string := model_name (config env).

(** The [payload] dictionary of [generate_sync] and [generate_async]. *)
Definition make_payload (env : Env) (prompt : string) (temperature : Q)
    (system_prompt : option string) : Payload :=
  {| url := base_url env +:+ "/api/generate";
     p_model := model env;
     prompt := prompt;
     stream := false;
     p_temperature := temperature;
     num_predict := -1;
     system := match system_prompt with
               | Some s => if Py.truthy s then Some s else None
               | None => None
               end |}.

(** A reply as the HTTP library returns it. *)
Record Response := MkResponse {
  status_code : Z;
  status_error : string;
  json_body : Outcome Json
}.

(** Sending one request: it is recorded, and the environment decides what
    comes back. *)
Definition send (env : Env) (payload : Payload) : M Response :=
  fun w =>
    let w' := MkWorld (posted w ++ [payload]) (clock_reads w) (session w) in
    match backend env (calls w) payload with
    | PostRaises e => (Raise e, w')
    | Reply st msg body => (Ok (MkResponse st msg body), w')
    end.

(** [requests.post(url, json=payload, ...)] *)
Definition requests_post (env : Env) (payload : Payload) : M Response :=
  send env payload.

(** [response.raise_for_status()] of [requests]: an [HTTPError] for a
    status in 400..599. *)
Definition requests_raise_for_status (r : Response) : M unit :=
  if ((400 <=? status_code r) && (status_code r <? 600))%Z
  then raise (MkExc RequestException (status_error r))
  else ret tt.

(** [self.session.post(url, json=payload)] of [aiohttp]: a closed session
    refuses before anything is sent. *)
Definition session_post (env : Env) (payload : Payload) : M Response :=
  fun w =>
    match session w with
    | Some SessionOpen => send env payload w
    | Some SessionClosed => (Raise (MkExc RuntimeError "Session is closed"), w)
    | None =>
        (Raise (MkExc AttributeError
                  "'NoneType' object has no attribute 'post'"), w)
    end.

(** [response.raise_for_status()] of [aiohttp]: a [ClientResponseError]
    for a status of 400 or more. *)
Definition aiohttp_raise_for_status (r : Response) : M unit :=
  if (400 <=? status_code r)%Z
  then raise (MkExc ClientError (status_error r))
  else ret tt.

(** The construction of the [OllamaResponse] from the decoded body. *)
Definition decode (env : Env) (result : Json) : M OllamaResponse.t :=
  c <- lift (json_get result "response" (JStr "")) ;;
  m <- lift (json_get result "model" (JStr (model env))) ;;
  td <- lift (json_get_none result "total_duration") ;;
  ld <- lift (json_get_none result "load_duration") ;;
  pc <- lift (json_get_none result "prompt_eval_count") ;;
  ec <- lift (json_get_none result "eval_count") ;;
  ret (OllamaResponse.Make c m td ld pc ec).

Definition communicating (e : Exc) : Exc :=
  MkExc PlainException ("Error communicating with Ollama: " +:+ str_exc e).

Definition parsing (e : Exc) : Exc :=
  MkExc PlainException ("Error parsing Ollama response: " +:+ str_exc e).

Definition generate_sync (env : Env) (prompt : string) (temperature : Q)
    (system_prompt : option string) : M OllamaResponse.t :=
  let payload := make_payload env prompt temperature system_prompt in
  try_except
    (response <- requests_post env payload ;;
     requests_raise_for_status response ;;;
     result <- lift (json_body response) ;;
     decode env result)
    (fun e =>
       match exc_kind e with
       | RequestException => raise (communicating e)
       | JSONDecodeError => raise (parsing e)
       | _ => raise (communicating e)
       end).

Definition not_initialized : Exc :=
  MkExc PlainException "Session not initialized. Use async context manager.".

Definition generate_async (env : Env) (prompt : string) (temperature : Q)
    (system_prompt : option string) : M OllamaResponse.t :=
  fun w =>
    match session w with
    | None => raise not_initialized w
    | Some _ =>
        let payload := make_payload env prompt temperature system_prompt in
        try_except
          (response <- session_post env payload ;;
           aiohttp_raise_for_status response ;;;
           result <- lift (json_body response) ;;
           decode env result)
          (fun e =>
             match exc_kind e with
             | ClientError => raise (communicating e)
             | JSONDecodeError => raise (parsing e)
             | _ => raise e
             end) w
    end.

(** [__aenter__]: a new session replaces whatever [self.session] held. *)
Definition aenter : M unit :=
  fun w => (Ok tt, set_session (Some SessionOpen) w).

(** [__aexit__]: the session is closed; [self.session] keeps the closed
    session object. *)
Definition aexit : M unit :=
  fun w =>
    match session w with
    | Some _ => (Ok tt, set_session (Some SessionClosed) w)
    | None => (Ok tt, w)
    end.

(** [async with self: body] *)
Definition async_with {A} (body : M A) : M A :=
  aenter ;;; finally body aexit.

(** *** [asyncio.gather]

    Every task is started in the order of the list and runs up to the
    reply of its own request; the result of each is kept in its future. *)
Fixpoint spawn_all {A} (tasks : list (M A)) (w : World)
    : list (Outcome A) * World :=
  match tasks with
  | [] => ([], w)
  | t :: rest =>
      let (o, w1) := t w in
      let (os, w2) := spawn_all rest w1 in
      (o :: os, w2)
  end.

(** [[fut.result() for fut in children]], once every child is done. *)
Fixpoint collect {A} (outs : list (Outcome A)) : Outcome (list A) :=
  match outs with
  | [] => Ok []
  | Ok a :: rest =>
      match collect rest with
      | Ok l => Ok (a :: l)
      | Raise e => Raise e
      end
  | Raise e :: _ => Raise e
  end.

(** The done-callbacks fire in completion order.  The first child found
    to have raised sets the exception of the gather; when the last child
    is done the results are collected in the order of the children.
    Children that [order] does not name complete last, in list order. *)
Fixpoint run_callbacks {A} (order : list nat) (outs : list (Outcome A))
    : Outcome (list A) :=
  match order with
  | [] => collect outs
  | i :: rest =>
      match outs !! i with
      | Some (Raise e) => Raise e
      | _ => run_callbacks rest outs
      end
  end.

(** [await asyncio.gather] over [tasks]; without tasks the result is [[]]. *)
Definition gather {A} (env : Env) (tasks : list (M A)) : M (list A) :=
  fun w =>
    let (outs, w') := spawn_all tasks w in
    match outs with
    | [] => (Ok [], w')
    | _ => (run_callbacks (completion_order env (calls w)) outs, w')
    end.

Definition generate_multiple_async (env : Env) (prompts : list string)
    (temperature : Q) (system_prompt : option string)
    : M (list OllamaResponse.t) :=
  fun w =>
    match session w with
    | None => raise not_initialized w
    | Some _ =>
        gather env
          (map (fun prompt => generate_async env prompt temperature system_prompt)
               prompts) w
    end.

End OllamaService.

(** ** The prompt builders

    [_create_chunk_summary_prompt] and [_create_final_summary_prompt] are
    written twice, word for word the same, in [summarizer.py] and in
    [simple_summarizer.py]; both classes use the definitions below. *)

Module Prompt.

Definition chunk_head : string :=
"You are an expert at summarizing transcript content. Please provide a concise but comprehensive summary of the following transcript segment.

This is chunk ".

Definition chunk_middle : string :=
" from a larger transcript.

Key requirements:
- Capture the main topics and key points discussed
- Preserve important details, names, and specific information
- Keep the summary focused and well-structured
- Maintain the chronological flow of information
- Use clear, professional language

Transcript segment:
".

Definition chunk_tail : string :=
"

Summary:".

Definition final_head : string :=
"You are an expert at creating comprehensive summaries from multiple related text segments. Below are summaries of different parts of a transcript. Please create a final, cohesive summary that:

1. Integrates all the key information from the segments
2. Maintains logical flow and structure
3. Eliminates redundancy while preserving important details
4. Provides a clear overview of the main topics and conclusions
5. Uses professional, clear language
6. Organizes information in a helpful way for the reader

Segment summaries:
".

Definition final_tail : string :=
"

Please provide a comprehensive final summary:".

(** The f-string of [_create_chunk_summary_prompt]. *)
Definition _create_chunk_summary_prompt (chunk_text : string)
    (chunk_num total_chunks : Z) : string :=
  chunk_head +:+ Py.str_int chunk_num +:+ " of " +:+ Py.str_int total_chunks
  +:+ chunk_middle +:+ chunk_text +:+ chunk_tail.

(** The f-string of [_create_final_summary_prompt]. *)
Definition _create_final_summary_prompt (combined_summaries : string) : string :=
  final_head +:+ combined_summaries +:+ final_tail.

(** The prompts of [[prompt(chunk.content, i + 1, len(chunks)) for i, chunk
    in enumerate(chunks)]], for the chunks from position [i] on. *)
Fixpoint chunk_prompts_from (i : Z) (total : Z) (chunks : list TextChunk.t)
    : list string :=
  match chunks with
  | [] => []
  | chunk :: rest =>
      _create_chunk_summary_prompt (TextChunk.content chunk) (i + 1) total
      :: chunk_prompts_from (i + 1) total rest
  end.

Definition chunk_prompts (chunks : list TextChunk.t) : list string :=
  chunk_prompts_from 0 (Z.of_nat (length chunks)) chunks.

End Prompt.

(** ** The result record

    [SummarizationResult] and [SimpleSummarizationResult] have the same
    fields. *)

Module Result.
Record t := Make {
  summary : string;
  original_length : Z;
  summary_length : Z;
  chunks_processed : Z;
  processing_time : Q;
  compression_ratio : Q;
  error : option string
}.
End Result.

(** [original / final if final else 0]: Python's true division, guarded by
    the truthiness of the summary text. *)
Definition ratio_of (original_text final_summary : string) : Q :=
  if Py.truthy final_summary
  then inject_Z (Py.len original_text) / inject_Z (Py.len final_summary)
  else 0.

(** [[response.content.strip() for response in responses]] *)
Fixpoint strip_contents (responses : list OllamaResponse.t) : Outcome (list string) :=
  match responses with
  | [] => Ok []
  | response :: rest =>
      match json_strip (OllamaResponse.content response) with
      | Raise e => Raise e
      | Ok s =>
          match strip_contents rest with
          | Ok l => Ok (s :: l)
          | Raise e => Raise e
          end
      end
  end.

(** [_process_chunks_async], the same in both classes, run to its end by
    [asyncio.run]. *)
Definition _process_chunks_async (env : Env) (prompts : list string)
    : M (list string) :=
  OllamaService.async_with
    (responses <- OllamaService.generate_multiple_async env prompts
                    (temperature (config env)) None ;;
     lift (strip_contents responses)).

(** ** [src/core/summarizer.py]: the workflow of [TranscriptSummarizer] *)

Module Stats.
(** The [processing_stats] dictionary: each key it can hold, absent
    ([None]) until a stage writes it. *)
Record t := Make {
  start_time : option Q;
  original_length : option Z;
  original_words : option Z;
  chunks_created : option Z;
  chunking_strategy : option string;
  single_chunk : option bool;
  chunks_summarized : option Z;
  end_time : option Q;
  processing_time : option Q;
  final_summary_length : option Z;
  final_summary_words : option Z;
  compression_ratio : option Q
}.

(** The dictionary that [parse_input] creates. *)
Definition initial (start : Q) (text : string) : t :=
  Make (Some start) (Some (Py.len text)) (Some (Py.count_words text))
       None None None None None None None None None.

(** [update({"chunks_created": n, "chunking_strategy": "sentence-based"})]
    followed, for a single chunk, by [["single_chunk"] = True]. *)
Definition with_chunking (n : Z) (s : t) : t :=
  Make (start_time s) (original_length s) (original_words s)
       (Some n) (Some "sentence-based")
       (if (n =? 1)%Z then Some true else single_chunk s)
       (chunks_summarized s) (end_time s) (processing_time s)
       (final_summary_length s) (final_summary_words s) (compression_ratio s).

(** [["chunks_summarized"] = n] *)
Definition with_chunks_summarized (n : Z) (s : t) : t :=
  Make (start_time s) (original_length s) (original_words s)
       (chunks_created s) (chunking_strategy s) (single_chunk s)
       (Some n) (end_time s) (processing_time s)
       (final_summary_length s) (final_summary_words s) (compression_ratio s).

(** The [update] of [create_final_summary]. *)
Definition with_final (end_t : Q) (original_text final_summary : string) (s : t) : t :=
  Make (start_time s) (original_length s) (original_words s)
       (chunks_created s) (chunking_strategy s) (single_chunk s)
       (chunks_summarized s)
       (Some end_t) (Some (end_t - default 0 (start_time s))%Q)
       (Some (Py.len final_summary)) (Some (Py.count_words final_summary))
       (Some (ratio_of original_text final_summary)).
End Stats.

Module State.
(** The [SummarizationState] dictionary. *)
Record t := Make {
  original_text : string;
  chunks : option (list TextChunk.t);
  chunk_summaries : option (list string);
  final_summary : string;
  processing_stats : option Stats.t;
  error : option string
}.

Definition with_error (msg : string) (s : t) : t :=
  Make (original_text s) (chunks s) (chunk_summaries s) (final_summary s)
       (processing_stats s) (Some msg).

Definition with_processing_stats (ps : Stats.t) (s : t) : t :=
  Make (original_text s) (chunks s) (chunk_summaries s) (final_summary s)
       (Some ps) (error s).

Definition with_chunks (cs : list TextChunk.t) (s : t) : t :=
  Make (original_text s) (Some cs) (chunk_summaries s) (final_summary s)
       (processing_stats s) (error s).

Definition with_chunk_summaries (l : list string) (s : t) : t :=
  Make (original_text s) (chunks s) (Some l) (final_summary s)
       (processing_stats s) (error s).

Definition with_final_summary (fs : string) (s : t) : t :=
  Make (original_text s) (chunks s) (chunk_summaries s) fs
       (processing_stats s) (error s).

(** [state.get("error")] taken as a condition: set and not empty. *)
Definition has_error (s : t) : bool :=
  match error s with
  | Some msg => Py.truthy msg
  | None => false
  end.

(** [not state.get(key)] for a list-valued key: unset or empty. *)
Definition missing {A} (o : option (list A)) : bool :=
  match o with
  | None | Some [] => true
  | Some (_ :: _) => false
  end.
End State.

Module Workflow.

(** The nodes of [_create_workflow]. *)

Definition parse_input (env : Env) (state : State.t) : M State.t :=
  if negb (Py.truthy (Py.strip (State.original_text state)))
  then ret (State.with_error "Empty input text" state)
  else
    start <- time_time env ;;
    ret (State.with_processing_stats
           (Stats.initial start (State.original_text state)) state).

(** [state.get("processing_stats", {})]: the key is always present, so the
    default never applies, and a [None] fails at its first use with
    [error_at_use]. *)
Definition stats_of (state : State.t) (error_at_use : Exc) : M Stats.t :=
  match State.processing_stats state with
  | Some ps => ret ps
  | None => raise error_at_use
  end.

Definition chunk_text (env : Env) (state : State.t) : M State.t :=
  if State.has_error state then ret state
  else
    try_except
      (chunks <- lift (chunk_by_sentences env (State.original_text state)) ;;
       ps <- stats_of state
               (MkExc AttributeError
                  "'NoneType' object has no attribute 'update'") ;;
       ret (State.with_processing_stats
              (Stats.with_chunking (Z.of_nat (length chunks)) ps)
              (State.with_chunks chunks state)))
      (fun e =>
         ret (State.with_error ("Error chunking text: " +:+ str_exc e) state)).

Definition summarize_chunks (env : Env) (state : State.t) : M State.t :=
  if State.has_error state || State.missing (State.chunks state) then ret state
  else
    try_except
      (match State.chunks state with
       | Some [chunk] =>
           (* a single chunk: its text stands in for its summary *)
           ret (State.with_chunk_summaries [TextChunk.content chunk] state)
       | Some chunks =>
           chunk_summaries <-
             _process_chunks_async env (Prompt.chunk_prompts chunks) ;;
           ps <- stats_of state
                   (MkExc TypeError
                      "'NoneType' object does not support item assignment") ;;
           ret (State.with_processing_stats
                  (Stats.with_chunks_summarized
                     (Z.of_nat (length chunk_summaries)) ps)
                  (State.with_chunk_summaries chunk_summaries state))
       | None =>
           (* [len(None)]; the guard above keeps this from happening *)
           raise (MkExc TypeError "object of type 'NoneType' has no len()")
       end)
      (fun e =>
         ret (State.with_error
                ("Error summarizing chunks: " +:+ str_exc e) state)).

Definition create_final_summary (env : Env) (state : State.t) : M State.t :=
  if State.has_error state || State.missing (State.chunk_summaries state)
  then ret state
  else
    try_except
      (combined_summaries <-
         match State.chunk_summaries state with
         | Some chunk_summaries => ret (Py.join (Py.nl +:+ Py.nl) chunk_summaries)
         | None =>
             (* [join(None)]; the guard above keeps this from happening *)
             raise (MkExc TypeError "can only join an iterable")
         end ;;
       let final_prompt := Prompt._create_final_summary_prompt combined_summaries in
       response <- OllamaService.generate_sync env final_prompt
                     (temperature (config env)) None ;;
       final_summary <- lift (json_strip (OllamaResponse.content response)) ;;
       end_time <- time_time env ;;
       ps <- stats_of state
               (MkExc AttributeError
                  "'NoneType' object has no attribute 'get'") ;;
       ret (State.with_processing_stats
              (Stats.with_final end_time (State.original_text state)
                 final_summary ps)
              (State.with_final_summary final_summary state)))
      (fun e =>
         ret (State.with_error
                ("Error creating final summary: " +:+ str_exc e) state)).

(** The compiled graph: the edges lead from START through [parse_input],
    [chunk_text], [summarize_chunks] and [create_final_summary] to END.
    Every node returns the whole state, so running the graph is running
    the nodes in turn, each on the state the previous one returned. *)
Definition Node : Type := Env -> State.t -> M State.t.

Definition nodes : list Node :=
  [parse_input; chunk_text; summarize_chunks; create_final_summary].

Fixpoint run_nodes (env : Env) (l : list Node) (state : State.t) : M State.t :=
  match l with
  | [] => ret state
  | node :: rest => state' <- node env state ;; run_nodes env rest state'
  end.

Definition invoke (env : Env) (initial_state : State.t) : M State.t :=
  run_nodes env nodes initial_state.

Definition initial_state (text : string) : State.t :=
  State.Make text None None "" None None.

(** The result built from a state in which [error] is set. *)
Definition failed (text : string) (msg : option string) : Result.t :=
  Result.Make "" (Py.len text) 0 0 0 0 msg.

Definition summarize_text (env : Env) (text : string) : M Result.t :=
  result_state <- invoke env (initial_state text) ;;
  if State.has_error result_state
  then ret (failed text (State.error result_state))
  else
    stats <- stats_of result_state
               (MkExc AttributeError
                  "'NoneType' object has no attribute 'get'") ;;
    ret (Result.Make
           (State.final_summary result_state)
           (default 0 (Stats.original_length stats))
           (default 0 (Stats.final_summary_length stats))
           (default 0 (Stats.chunks_summarized stats))
           (default 0%Q (Stats.processing_time stats))
           (default 0%Q (Stats.compression_ratio stats))
           None).

End Workflow.

(** ** [src/core/simple_summarizer.py]: [SimpleTranscriptSummarizer] *)

Module Simple.

Definition no_content : string := "No content to summarize.".

Definition summarize_text (env : Env) (text : string) : M Result.t :=
  start_time <- time_time env ;;
  try_except
    (chunks <- lift (chunk_by_sentences env text) ;;
     match chunks with
     | [] =>
         t_now <- time_time env ;;
         ret (Result.Make no_content (Py.len text) 0 0
                (t_now - start_time)%Q 0
                (Some "No chunks created from input text"))
     | _ =>
         summarized <-
           match chunks with
           | [chunk] =>
               (* single chunk: direct summarization *)
               let prompt :=
                 Prompt._create_final_summary_prompt (TextChunk.content chunk) in
               response <- OllamaService.generate_sync env prompt
                             (temperature (config env)) None ;;
               final_summary <- lift (json_strip (OllamaResponse.content response)) ;;
               ret (final_summary, 1)
           | _ =>
               (* several chunks: two-stage summarization *)
               chunk_summaries <-
                 _process_chunks_async env (Prompt.chunk_prompts chunks) ;;
               let combined_summaries :=
                 Py.join (Py.nl +:+ Py.nl) chunk_summaries in
               let final_prompt :=
                 Prompt._create_final_summary_prompt combined_summaries in
               response <- OllamaService.generate_sync env final_prompt
                             (temperature (config env)) None ;;
               final_summary <- lift (json_strip (OllamaResponse.content response)) ;;
               ret (final_summary, Z.of_nat (length chunks))
           end ;;
         let (final_summary, chunks_processed) := summarized : string * Z in
         end_time <- time_time env ;;
         ret (Result.Make final_summary (Py.len text) (Py.len final_summary)
                chunks_processed (end_time - start_time)%Q
                (ratio_of text final_summary) None)
     end)
    (fun e =>
       t_now <- time_time env ;;
       ret (Result.Make "" (Py.len text) 0 0 (t_now - start_time)%Q 0
              (Some (str_exc e)))).

End Simple.

(** ** The other methods of the two summarizer classes

    [summarize_vtt_file] and [summarize_vtt_content] are written the same
    way in both classes and differ only in the parser call.  The parser,
    [src/core/vtt_parser.py], is not among the sources: [transcript] is
    what [parse_file] (or [parse_content]) followed by
    [get_full_transcript] yields for the given argument, or the exception
    that one of the two raises. *)

Definition summarize_vtt (summarize_text : string -> M Result.t)
    (transcript : Outcome string) : M Result.t :=
  try_except
    (full_text <- lift transcript ;;
     summarize_text full_text)
    (fun e => ret (Result.Make "" 0 0 0 0 0 (Some (str_exc e)))).

Module TranscriptSummarizer.

Definition summarize_vtt_file (env : Env) (parse_file : string -> Outcome string)
    (file_path : string) : M Result.t :=
  summarize_vtt (Workflow.summarize_text env) (parse_file file_path).

Definition summarize_vtt_content (env : Env)
    (parse_content : string -> Outcome string) (vtt_content : string)
    : M Result.t :=
  summarize_vtt (Workflow.summarize_text env) (parse_content vtt_content).

End TranscriptSummarizer.

Module SimpleTranscriptSummarizer.

Definition summarize_vtt_file (env : Env) (parse_file : string -> Outcome string)
    (file_path : string) : M Result.t :=
  summarize_vtt (Simple.summarize_text env) (parse_file file_path).

Definition summarize_vtt_content (env : Env)
    (parse_content : string -> Outcome string) (vtt_content : string)
    : M Result.t :=
  summarize_vtt (Simple.summarize_text env) (parse_content vtt_content).

End SimpleTranscriptSummarizer.

(** ** [src/services/ollama_service.py]: the probes

    [test_connection], [check_model_availability], [get_model_info] and
    [pull_model] go through [requests] directly; they neither use nor
    change [self.session], so they run on a log of their own. *)

Module Probe.

Inductive Method := GET | POST.

(** A call of [requests.get] or [requests.post]. *)
Record Request := MkRequest {
  method : Method;
  url : string;
  json : option Json;
  timeout : Z
}.

(** The fate of the [k]-th probe of the run. *)
Definition Http : Type := nat -> Request -> HttpOutcome.

Definition Log : Type := list Request.

(** The outcome of a [try] body whose handler throws the exception away:
    [None] stands for any exception. *)
Definition forget {A} (o : Outcome A) : option A :=
  match o with
  | Ok a => Some a
  | Raise _ => None
  end.

(** [except Exception: return False] *)
Definition or_false (attempt : option bool) : bool := default false attempt.

(** Sending a probe: it is recorded, and the environment decides what
    comes back. *)
Definition send (http : Http) (request : Request) (log : Log)
    : Outcome OllamaService.Response * Log :=
  (match http (length log) request with
   | PostRaises e => Raise e
   | Reply st msg body => Ok (OllamaService.MkResponse st msg body)
   end,
   log ++ [request]).

Definition tags_request (env : Env) : Request :=
  MkRequest GET (OllamaService.base_url env +:+ "/api/tags") None 10.

Definition show_request (env : Env) : Request :=
  MkRequest POST (OllamaService.base_url env +:+ "/api/show")
    (Some (JDict [("name", JStr (OllamaService.model env))])) 10.

Definition pull_request (env : Env) : Request :=
  MkRequest POST (OllamaService.base_url env +:+ "/api/pull")
    (Some (JDict [("name", JStr (OllamaService.model env))])) 600.

Definition test_connection (env : Env) (http : Http) (log : Log) : bool * Log :=
  let (response, log') := send http (tags_request env) log in
  (or_false
     (response ← forget response;
      Some (OllamaService.status_code response =? 200)),
   log').

(** The characters of a string, as iterating over a [str] yields them. *)
Fixpoint chars (s : string) : list Json :=
  match s with
  | EmptyString => []
  | String c r => JStr (String c EmptyString) :: chars r
  end.

(** [for model in models]: a list yields its elements, a [dict] its keys,
    a [str] its characters; nothing else can be iterated. *)
Definition iterate (models : Json) : option (list Json) :=
  match models with
  | JList l => Some l
  | JDict fields => Some (map (fun kv => JStr (fst kv)) fields)
  | JStr s => Some (chars s)
  | _ => None
  end.

(** [model['name'].startswith(prefix)]: the subscript needs a [dict] that
    has the key, [startswith] needs a [str]. *)
Definition name_startswith (prefix : string) (model : Json) : option bool :=
  match model with
  | JDict fields =>
      match dict_lookup "name" fields with
      | Some (JStr name) => Some (String.prefix prefix name)
      | _ => None
      end
  | _ => None
  end.

(** [any(model['name'].startswith(prefix) for model in models)]: the
    entries are tried in turn up to the first that matches. *)
Fixpoint any_startswith (prefix : string) (models : list Json) : option bool :=
  match models with
  | [] => Some false
  | model :: rest =>
      match name_startswith prefix model with
      | None => None
      | Some true => Some true
      | Some false => any_startswith prefix rest
      end
  end.

Definition check_model_availability (env : Env) (http : Http) (log : Log)
    : bool * Log :=
  let (response, log') := send http (tags_request env) log in
  (or_false
     (response ← forget response;
      if OllamaService.status_code response =? 200
      then
        result ← forget (OllamaService.json_body response);
        models ← forget (json_get result "models" (JList []));
        entries ← iterate models;
        any_startswith (OllamaService.model env) entries
      else Some false),
   log').

(** [response.raise_for_status()] followed by [response.json()]. *)
Definition checked_body (response : OllamaService.Response) : Outcome Json :=
  if ((400 <=? OllamaService.status_code response)
      && (OllamaService.status_code response <? 600))%Z
  then Raise (MkExc RequestException (OllamaService.status_error response))
  else OllamaService.json_body response.

Definition get_model_info (env : Env) (http : Http) (log : Log) : Json * Log :=
  let (response, log') := send http (show_request env) log in
  (match
     match response with
     | Ok response => checked_body response
     | Raise e => Raise e
     end
   with
   | Ok info => info
   | Raise e =>
       JDict [("error", JStr ("Could not get model info: " +:+ str_exc e))]
   end,
   log').

Definition pull_model (env : Env) (http : Http) (log : Log) : bool * Log :=
  let (response, log') := send http (pull_request env) log in
  (or_false
     (response ← forget response;
      Some (OllamaService.status_code response =? 200)),
   log').

End Probe.

Module Health.
(** The dictionary that [check_service_health] returns.  [error] is the
    key that its handler would add. *)
Record t := Make {
  ollama_connection : bool;
  model_available : bool;
  model_info : Json;
  timestamp : Q;
  error : option string
}.
End Health.

(** [check_service_health], the same in both classes.  The three probes
    return normally whatever happens, so nothing reaches the handler of
    the [try] around them.  [reads] counts the readings of the clock. *)
Definition check_service_health (env : Env) (http : Probe.Http)
    (log : Probe.Log) (reads : nat) : Health.t * Probe.Log * nat :=
  let timestamp := wall_clock env reads in
  let (connected, log1) := Probe.test_connection env http log in
  if connected
  then
    let (available, log2) := Probe.check_model_availability env http log1 in
    let (info, log3) := Probe.get_model_info env http log2 in
    (Health.Make connected available info timestamp None, log3, S reads)
  else
    (Health.Make false false (JDict []) timestamp None, log1, S reads).

(** ** Sample environments

    Concrete configurations, chunkers and backends on which the
    definitions above are run. *)

Module Sample.

Definition cfg : Config :=
  MkConfig "http://localhost:11434" "llama3" 2000 200 300 (3 # 10).

(** Modelled from the spec: [chunk_by_sentences] of [src/core/chunker.py]
    is not among the sources.  Section 4.1 of the specification fixes its
    result on the two kinds of input used here: empty or whitespace-only
    text gives the empty sequence, and text shorter than the chunk size
    gives exactly one chunk covering the whole text. *)
Definition short_text_chunker (text : string) : Outcome (list TextChunk.t) :=
  if Py.truthy (Py.strip text)
  then Ok [TextChunk.Make text 0 0 (Py.len text)]
  else Ok [].

(** A chunker that fails, as the specification allows for a chunk overlap
    that is not below the chunk size. *)
Definition failing_chunker (text : string) : Outcome (list TextChunk.t) :=
  Raise (MkExc PlainException "overlap must be smaller than chunk size").

(** A chunker that cuts every text into the same three pieces; it serves
    to run the several-chunk path. *)
Definition three_chunker (text : string) : Outcome (list TextChunk.t) :=
  Ok [TextChunk.Make "First part." 0 0 11;
      TextChunk.Make "Second part." 1 11 23;
      TextChunk.Make "Third part." 2 23 34].

(** A backend that answers every request with status 200 and [body]. *)
Definition replying (body : Json) : nat -> Payload -> HttpOutcome :=
  fun _ _ => Reply 200 "" (Ok body).

Definition clock (k : nat) : Q := inject_Z (Z.of_nat k).

(** A healthy backend and a text short enough for one chunk. *)
Definition env_ok : Env :=
  MkEnv cfg short_text_chunker
    (replying (JDict [("response", JStr " A summary. "); ("model", JStr "llama3")]))
    (fun _ => []) clock.

(** The backend answers with whitespace only. *)
Definition env_blank_reply : Env :=
  MkEnv cfg short_text_chunker
    (replying (JDict [("response", JStr "  "); ("model", JStr "llama3")]))
    (fun _ => []) clock.

(** The body has neither [response] nor [model]. *)
Definition env_bare_reply : Env :=
  MkEnv cfg short_text_chunker (replying (JDict [("done", JBool true)]))
    (fun _ => []) clock.

(** The chunker raises. *)
Definition env_chunk_fail : Env :=
  MkEnv cfg failing_chunker
    (replying (JDict [("response", JStr "A summary.")]))
    (fun _ => []) clock.

(** Three chunks; the replies complete in reverse order. *)
Definition env_three : Env :=
  MkEnv cfg three_chunker
    (fun k _ => Reply 200 "" (Ok (JDict [("response", JStr ("summary " +:+ pretty k))])))
    (fun _ => [2; 1; 0]%nat) clock.

(** Three chunks; the second request is answered with status 500. *)
Definition env_three_fail : Env :=
  MkEnv cfg three_chunker
    (fun k _ =>
       if (k =? 1)%nat then Reply 500 "500, message='Internal Server Error'" (Ok JNull)
       else Reply 200 "" (Ok (JDict [("response", JStr ("summary " +:+ pretty k))])))
    (fun _ => [2; 1; 0]%nat) clock.

(** [s] repeated [n] times. *)
Fixpoint repeat_string (n : nat) (s : string) : string :=
  match n with
  | O => ""
  | S n' => s +:+ repeat_string n' s
  end.

(** A text of 1000 characters and a reply of 100. *)
Definition text_1000 : string := repeat_string 100 "It is ok. ".

Definition summary_100 : string := repeat_string 10 "Well done.".

Definition env_hundred : Env :=
  MkEnv cfg short_text_chunker
    (replying (JDict [("response", JStr (" " +:+ summary_100 +:+ Py.nl))]))
    (fun _ => []) clock.

(** A world in which the service has been used once as a context manager:
    [async with service: pass]. *)
Definition after_exit : World :=
  snd (OllamaService.async_with (ret tt) fresh).


(** Every request times out; the exception has no text. *)
Definition env_timeout : Env :=
  MkEnv cfg three_chunker
    (fun _ _ => PostRaises (MkExc TimeoutError ""))
    (fun _ => []) clock.

(** The body has a [response] key that holds [null]. *)
Definition env_null_reply : Env :=
  MkEnv cfg short_text_chunker
    (replying (JDict [("response", JNull); ("model", JStr "llama3")]))
    (fun _ => []) clock.

(** The base URL is given with trailing slashes. *)
Definition env_slashes : Env :=
  MkEnv (MkConfig "http://localhost:11434//" "llama3" 2000 200 300 (3 # 10))
    short_text_chunker
    (replying (JDict [("response", JStr "A summary.")]))
    (fun _ => []) clock.

(** A tag listing in which only a longer name is installed. *)
Definition tags_longer_name : Json :=
  JDict [("models", JList [JDict [("name", JStr "mistral:7b")];
                           JDict [("name", JStr "llama3.1:8b")]])].

(** A tag listing with an entry that has no name before the model. *)
Definition tags_malformed : Json :=
  JDict [("models", JList [JDict [("digest", JStr "abc")];
                           JDict [("name", JStr "llama3")]])].

(** Probes that are all answered with status 200 and [body]. *)
Definition probes_ok (body : Json) : Probe.Http :=
  fun _ _ => Reply 200 "" (Ok body).

(** Probes that find nobody listening. *)
Definition probes_down : Probe.Http :=
  fun _ _ => PostRaises (MkExc RequestException "Connection refused").

(** A parser that yields a fixed transcript, and one that rejects its
    input. *)
Definition parser_ok (transcript : string) : string -> Outcome string :=
  fun _ => Ok transcript.

Definition parser_fails : string -> Outcome string :=
  fun _ => Raise (MkExc PlainException "Invalid VTT file").

End Sample.

(** ** Vocabulary of the statements *)

(** What a world looks like after one more request. *)
Definition sent (payload : Payload) (w : World) : World :=
  MkWorld (posted w ++ [payload]) (clock_reads w) (session w).

(** What a world looks like after several more requests. *)
Definition sent_all (payloads : list Payload) (w : World) : World :=
  MkWorld (posted w ++ payloads) (clock_reads w) (session w).

(** The same environment with another completion order. *)
Definition with_completion_order (order : nat -> list nat) (env : Env) : Env :=
  MkEnv (config env) (chunk_by_sentences env) (backend env) order (wall_clock env).

(** The fate of each request of a batch, in the order of the prompts. *)
Definition request_outcomes (env : Env) (prompts : list string)
    (temperature : Q) (system_prompt : option string) (w : World)
    : list (Outcome OllamaResponse.t) :=
  fst (OllamaService.spawn_all
         (map (fun prompt =>
                 OllamaService.generate_async env prompt temperature system_prompt)
              prompts) w).

(** The request that asks for the final summary of [summaries]. *)
Definition final_request (env : Env) (summaries : string) : Payload :=
  OllamaService.make_payload env
    (Prompt._create_final_summary_prompt summaries)
    (temperature (config env)) None.

(** The two kinds of result: a summary [fs] of [text] after [n] chunks,
    and a failure with message [msg]. *)
Definition success (text fs : string) (n : Z) (elapsed : Q) : Result.t :=
  Result.Make fs (Py.len text) (Py.len fs) n elapsed (ratio_of text fs) None.

Definition failure (text : string) (elapsed : Q) (msg : string) : Result.t :=
  Result.Make "" (Py.len text) 0 0 elapsed 0 (Some msg).

(** The outcome that the specification promises for every result: no
    error and, for a text that is not empty, a summary that is not empty;
    or an error and an empty summary. *)
Definition promised_outcome (r : Result.t) : Prop :=
  (Result.error r = None
   /\ (0 < Result.original_length r -> Result.summary r <> ""))
  \/ (Result.error r <> None /\ Result.summary r = "").

(** The result that the specification promises for empty input. *)
Definition promised_empty_result (r : Result.t) : Prop :=
  Result.error r = None
  /\ Result.summary r = "No content to summarize."
  /\ Result.chunks_processed r = 0.

(** The compression ratio that belongs to the two lengths of a result. *)
Definition expected_ratio (r : Result.t) : Q :=
  if 0 <? Result.summary_length r
  then inject_Z (Result.original_length r) / inject_Z (Result.summary_length r)
  else 0.

(** The error message of a state is set properly: absent, or not empty. *)
Definition error_ok (state : State.t) : Prop :=
  match State.error state with
  | Some msg => Py.truthy msg = true
  | None => True
  end.

(** A node that leaves a failed state, and the world, untouched. *)
Definition skips (env : Env) (node : Workflow.Node) : Prop :=
  forall state w,
    State.has_error state = true -> node env state w = (Ok state, w).

(** A node that always returns, and never sets an empty error. *)
Definition keeps_error_ok (env : Env) (node : Workflow.Node) : Prop :=
  forall state w,
    error_ok state ->
    exists state' w', node env state w = (Ok state', w') /\ error_ok state'.

(** A call that ends in the exception of the session guard. *)
Definition raises_not_initialized {A} (r : Outcome A * World) : Prop :=
  fst r = Raise OllamaService.not_initialized.

(** The world after one more reading of the clock, and the reading that
    a world would get next. *)
Definition tick (w : World) : World :=
  MkWorld (posted w) (S (clock_reads w)) (session w).

Definition now (env : Env) (w : World) : Q := wall_clock env (clock_reads w).

(** The request that carries one prompt of a batch. *)
Definition chunk_request (env : Env) (prompt : string) : Payload :=
  OllamaService.make_payload env prompt (temperature (config env)) None.

(** The reduce step that both summarizers end with: one request for the
    final summary of [summaries], and the stripped text of the reply. *)
Definition reduction (env : Env) (summaries : list string) : M string :=
  response <- OllamaService.generate_sync env
                (Prompt._create_final_summary_prompt
                   (Py.join (Py.nl +:+ Py.nl) summaries))
                (temperature (config env)) None ;;
  lift (json_strip (OllamaResponse.content response)).

(** The map step for the chunks: a single chunk stands for its own
    summary, several chunks go through the batch. *)
Definition chunk_summaries_of (env : Env) (chunks : list TextChunk.t)
    : M (list string) :=
  match chunks with
  | [chunk] => ret [TextChunk.content chunk]
  | _ => _process_chunks_async env (Prompt.chunk_prompts chunks)
  end.

(** A run over [chunks] that got its final reply.  The map step, begun
    after the first reading of the clock, gave the chunk summaries; the
    request for their final summary went out next and was answered;
    [body] is the text of that answer and [w'] the world it arrived in,
    where the request is the last one sent. *)
Definition final_reply (env : Env) (chunks : list TextChunk.t) (w : World)
    (body : string) (w' : World) : Prop :=
  exists summaries w2 response,
    chunk_summaries_of env chunks (tick w) = (Ok summaries, w2)
    /\ OllamaService.generate_sync env
         (Prompt._create_final_summary_prompt
            (Py.join (Py.nl +:+ Py.nl) summaries))
         (temperature (config env)) None w2 = (Ok response, w')
    /\ OllamaResponse.content response = JStr body
    /\ posted w'
       = posted w2 ++ [final_request env (Py.join (Py.nl +:+ Py.nl) summaries)].

(** A run over [chunks] that broke off: the map step raised, or the
    reduce step after it did. *)
Definition broke_off (env : Env) (chunks : list TextChunk.t) (w : World)
    : Prop :=
  (exists e w2, chunk_summaries_of env chunks (tick w) = (Raise e, w2))
  \/ (exists summaries w2 e w3,
        chunk_summaries_of env chunks (tick w) = (Ok summaries, w2)
        /\ reduction env summaries w2 = (Raise e, w3)).

(** A string made of slashes only. *)
Fixpoint all_slashes (s : string) : bool :=
  match s with
  | EmptyString => true
  | String c r => Ascii.eqb c "/"%char && all_slashes r
  end.

(** The last character of a string, if there is one. *)
Fixpoint last_char (s : string) : option ascii :=
  match s with
  | EmptyString => None
  | String c EmptyString => Some c
  | String _ r => last_char r
  end.

(** A clock that never runs backwards. *)
Definition monotone_clock (env : Env) : Prop :=
  forall k, (wall_clock env k <= wall_clock env (S k))%Q.

(** The outcomes of the requests of a batch before position [i] in the
    completion order are all successes. *)
Definition succeeded {A} (outs : list (Outcome A)) (i : nat) : Prop :=
  forall e, outs !! i <> Some (Raise e).

(** A request that is built from the configuration alone, apart from its
    prompt: the configured URL, model and temperature, no streaming, no
    limit on the length, no system prompt. *)
Definition configured (env : Env) (p : Payload) : Prop :=
  url p = OllamaService.base_url env +:+ "/api/generate"
  /\ p_model p = model_name (config env)
  /\ p_temperature p = temperature (config env)
  /\ stream p = false
  /\ num_predict p = -1
  /\ system p = None.

(** An entry of a tag listing that carries [name] under the key "name". *)
Definition named (entry : Json) (name : string) : Prop :=
  exists fields,
    entry = JDict fields /\ dict_lookup "name" fields = Some (JStr name).

(** * Properties *)

#[local] Arguments Prompt._create_chunk_summary_prompt : simpl never.
#[local] Arguments Prompt._create_final_summary_prompt : simpl never.
#[local] Arguments Prompt.chunk_prompts : simpl never.
#[local] Arguments OllamaService.generate_sync : simpl never.
#[local] Arguments _process_chunks_async : simpl never.
#[local] Arguments json_strip : simpl never.
#[local] Arguments ratio_of : simpl never.
#[local] Arguments Py.len : simpl never.
#[local] Arguments Py.count_words : simpl never.
#[local] Arguments Py.strip : simpl never.

(** ** The service *)

Section Service.

Variable env : Env.

Lemma send_world payload w : snd (OllamaService.send env payload w) = sent payload w.
Proof.
  unfold OllamaService.send.
  destruct (backend env (calls w) payload); reflexivity.
Qed.

(** Decoding a JSON object never raises: an absent key takes its default. *)
Lemma decode_dict fields w :
  OllamaService.decode env (JDict fields) w =
  (Ok (OllamaResponse.Make
         (default (JStr "") (dict_lookup "response" fields))
         (default (JStr (OllamaService.model env)) (dict_lookup "model" fields))
         (default JNull (dict_lookup "total_duration" fields))
         (default JNull (dict_lookup "load_duration" fields))
         (default JNull (dict_lookup "prompt_eval_count" fields))
         (default JNull (dict_lookup "eval_count" fields))), w).
Proof. reflexivity. Qed.

(** [generate_sync] sends exactly one request, whatever comes back. *)
Lemma generate_sync_world prompt temperature system_prompt w :
  snd (OllamaService.generate_sync env prompt temperature system_prompt w)
  = sent (OllamaService.make_payload env prompt temperature system_prompt) w.
Proof.
  unfold OllamaService.generate_sync, try_except, bind,
    OllamaService.requests_post, OllamaService.send.
  set (payload := OllamaService.make_payload _ _ _ _).
  destruct (backend env (calls w) payload) as [e | st msg [result | e]]; simpl.
  - destruct (exc_kind e); reflexivity.
  - unfold OllamaService.requests_raise_for_status. simpl.
    destruct ((400 <=? st)%Z && (st <? 600)%Z); simpl; [reflexivity |].
    destruct result; reflexivity.
  - unfold OllamaService.requests_raise_for_status. simpl.
    destruct ((400 <=? st)%Z && (st <? 600)%Z); simpl; [reflexivity |].
    destruct (exc_kind e); reflexivity.
Qed.

(** Whatever [generate_sync] raises has been wrapped, so its text is not
    empty. *)
Lemma generate_sync_raises prompt temperature system_prompt w e w' :
  OllamaService.generate_sync env prompt temperature system_prompt w = (Raise e, w') ->
  Py.truthy (str_exc e) = true.
Proof.
  unfold OllamaService.generate_sync, try_except, bind,
    OllamaService.requests_post, OllamaService.send.
  set (payload := OllamaService.make_payload _ _ _ _).
  destruct (backend env (calls w) payload) as [e0 | st msg [result | e0]]; simpl.
  - destruct (exc_kind e0); intros [= <- _]; reflexivity.
  - unfold OllamaService.requests_raise_for_status. simpl.
    destruct ((400 <=? st)%Z && (st <? 600)%Z); simpl.
    + intros [= <- _]; reflexivity.
    + destruct result; simpl; intros [= <- _] || intros [=]; reflexivity.
  - unfold OllamaService.requests_raise_for_status. simpl.
    destruct ((400 <=? st)%Z && (st <? 600)%Z); simpl.
    + intros [= <- _]; reflexivity.
    + destruct (exc_kind e0); intros [= <- _]; reflexivity.
Qed.

End Service.

(** ** Response decoding *)

(** C9. When the backend answers a generation request with a JSON object
    that has no [response] key, both [generate_sync] and [generate_async]
    return a response (they do not raise) whose content is the empty
    string; its model is whatever the body declares under [model], taken
    as it is and never compared with the requested model, and the
    requested model name when the body declares none. *)
Theorem missing_content_decodes_empty
    env prompt temperature system_prompt w status msg fields :
  let payload := OllamaService.make_payload env prompt temperature system_prompt in
  backend env (calls w) payload = Reply status msg (Ok (JDict fields)) ->
  (status < 400)%Z ->
  dict_lookup "response" fields = None ->
  let declared :=
    default (JStr (OllamaService.model env)) (dict_lookup "model" fields) in
  (exists r,
      OllamaService.generate_sync env prompt temperature system_prompt w
      = (Ok r, sent payload w)
      /\ OllamaResponse.content r = JStr ""
      /\ OllamaResponse.model r = declared)
  /\ (session w = Some SessionOpen ->
      exists r,
        OllamaService.generate_async env prompt temperature system_prompt w
        = (Ok r, sent payload w)
        /\ OllamaResponse.content r = JStr ""
        /\ OllamaResponse.model r = declared).
Proof.
  intros payload Hreply Hstatus Hmissing declared.
  assert (Hlow : (400 <=? status)%Z = false) by (apply Z.leb_gt; exact Hstatus).
  split.
  - unfold OllamaService.generate_sync, try_except, bind,
      OllamaService.requests_post, OllamaService.send.
    fold payload. rewrite Hreply. simpl.
    unfold OllamaService.requests_raise_for_status. simpl.
    rewrite Hlow. simpl. rewrite Hmissing. simpl.
    eexists. split; [reflexivity |]. split; reflexivity.
  - intros Hopen.
    unfold OllamaService.generate_async. rewrite Hopen.
    unfold try_except, bind, OllamaService.session_post. rewrite Hopen.
    unfold OllamaService.send. fold payload. rewrite Hreply. simpl.
    unfold OllamaService.aiohttp_raise_for_status. simpl.
    rewrite Hlow. simpl. rewrite Hmissing. simpl.
    eexists. split; [reflexivity |]. split; reflexivity.
Qed.

Lemma missing_content_decodes_empty_witness :
  exists r,
    OllamaService.generate_sync Sample.env_bare_reply "Hello" (3 # 10) None fresh
    = (Ok r, sent (OllamaService.make_payload Sample.env_bare_reply
                     "Hello" (3 # 10) None) fresh)
    /\ OllamaResponse.content r = JStr ""
    /\ OllamaResponse.model r = JStr "llama3".
Proof.
  refine (proj1 (missing_content_decodes_empty Sample.env_bare_reply
                   "Hello" (3 # 10) None fresh 200%Z "" [("done", JBool true)]
                   _ _ _)).
  - reflexivity.
  - reflexivity.
  - reflexivity.
Defined.

(** A body that is valid JSON but not an object has no [get]: there
    [generate_sync] raises its wrapped error and [generate_async] lets the
    [AttributeError] through. *)
Lemma non_object_body_raises
    env prompt temperature system_prompt w status msg result :
  let payload := OllamaService.make_payload env prompt temperature system_prompt in
  backend env (calls w) payload = Reply status msg (Ok result) ->
  (status < 400)%Z ->
  (forall fields, result <> JDict fields) ->
  fst (OllamaService.generate_sync env prompt temperature system_prompt w)
  = Raise (OllamaService.communicating (no_attribute result "get"))
  /\ (session w = Some SessionOpen ->
      fst (OllamaService.generate_async env prompt temperature system_prompt w)
      = Raise (no_attribute result "get")).
Proof.
  intros payload Hreply Hstatus Hnd.
  assert (Hlow : (400 <=? status)%Z = false) by (apply Z.leb_gt; exact Hstatus).
  split.
  - unfold OllamaService.generate_sync, try_except, bind,
      OllamaService.requests_post, OllamaService.send.
    fold payload. rewrite Hreply. simpl.
    unfold OllamaService.requests_raise_for_status. simpl.
    rewrite Hlow. simpl.
    destruct result; try reflexivity. exfalso. eapply Hnd. reflexivity.
  - intros Hopen.
    unfold OllamaService.generate_async. rewrite Hopen.
    unfold try_except, bind, OllamaService.session_post. rewrite Hopen.
    unfold OllamaService.send. fold payload. rewrite Hreply. simpl.
    unfold OllamaService.aiohttp_raise_for_status. simpl.
    rewrite Hlow. simpl.
    destruct result; try reflexivity. exfalso. eapply Hnd. reflexivity.
Qed.

(** ** The session guard and the concurrent batch *)

Section Batch.

Variable env : Env.
Variable temperature : Q.
Variable system_prompt : option string.

(** The tasks of a batch. *)
Local Abbreviation tasks prompts :=
  (map (fun prompt : string =>
          OllamaService.generate_async env prompt temperature system_prompt)
       prompts).

(** [generate_async] sends one request through an open session and
    nothing otherwise. *)
Lemma generate_async_world prompt w :
  snd (OllamaService.generate_async env prompt temperature system_prompt w) =
  match session w with
  | Some SessionOpen =>
      sent (OllamaService.make_payload env prompt temperature system_prompt) w
  | _ => w
  end.
Proof.
  unfold OllamaService.generate_async.
  destruct (session w) as [[|]|] eqn:Hs; [| | reflexivity].
  - unfold try_except, bind, OllamaService.session_post. rewrite Hs.
    unfold OllamaService.send.
    set (payload := OllamaService.make_payload _ _ _ _).
    destruct (backend env (calls w) payload) as [e | st msg [result | e]]; simpl.
    + destruct (exc_kind e); reflexivity.
    + unfold OllamaService.aiohttp_raise_for_status. simpl.
      destruct (400 <=? st)%Z; simpl; [reflexivity |].
      destruct result; reflexivity.
    + unfold OllamaService.aiohttp_raise_for_status. simpl.
      destruct (400 <=? st)%Z; simpl; [reflexivity |].
      destruct (exc_kind e); reflexivity.
  - unfold try_except, bind, OllamaService.session_post. rewrite Hs. reflexivity.
Qed.

Lemma generate_async_not_open prompt w :
  session w <> Some SessionOpen ->
  snd (OllamaService.generate_async env prompt temperature system_prompt w) = w.
Proof.
  intros Hne. rewrite generate_async_world.
  destruct (session w) as [[|]|]; congruence.
Qed.

Lemma spawn_all_length {A} (tasks : list (M A)) w :
  length (fst (OllamaService.spawn_all tasks w)) = length tasks.
Proof.
  revert w. induction tasks as [| t rest IH]; intros w; simpl; [reflexivity |].
  destruct (t w) as [o w1]. specialize (IH w1).
  destruct (OllamaService.spawn_all rest w1) as [os w2]. simpl in *.
  now rewrite IH.
Qed.

Lemma spawn_all_not_open prompts w :
  session w <> Some SessionOpen ->
  snd (OllamaService.spawn_all (tasks prompts) w) = w.
Proof.
  intros Hne. induction prompts as [| p rest IH]; simpl; [reflexivity |].
  pose proof (generate_async_not_open p w Hne) as Hp.
  destruct (OllamaService.generate_async env p temperature system_prompt w)
    as [o w1]. simpl in Hp. subst w1.
  destruct (OllamaService.spawn_all (tasks rest) w) as [os w2].
  simpl in *. exact IH.
Qed.

(** Collecting succeeds exactly when every child succeeded, and then
    yields the children's results in the order of the children. *)
Lemma collect_ok {A} (outs : list (Outcome A)) rs :
  OllamaService.collect outs = Ok rs <-> outs = map Ok rs.
Proof.
  revert rs. induction outs as [| o rest IH]; intros rs; simpl.
  - split.
    + intros [= <-]. reflexivity.
    + destruct rs; [reflexivity | discriminate].
  - destruct o as [a | e].
    + destruct (OllamaService.collect rest) as [l | e] eqn:Hc.
      * split.
        -- intros [= <-]. simpl. f_equal. now apply IH.
        -- destruct rs as [| r rs']; [discriminate |]. simpl.
           intros [= -> Hrest]. apply IH in Hrest. congruence.
      * split; [discriminate |].
        destruct rs as [| r rs']; [discriminate |]. simpl.
        intros [= -> Hrest]. apply IH in Hrest. discriminate.
    + split; [discriminate |]. destruct rs; discriminate.
Qed.

Lemma collect_raise {A} (outs : list (Outcome A)) e :
  OllamaService.collect outs = Raise e -> exists i, outs !! i = Some (Raise e).
Proof.
  induction outs as [| o rest IH]; simpl; [discriminate |].
  destruct o as [a | e0].
  - destruct (OllamaService.collect rest) as [l | e1]; [discriminate |].
    intros [= ->]. destruct IH as [i Hi]; [reflexivity |].
    exists (S i). exact Hi.
  - intros [= ->]. exists 0%nat. reflexivity.
Qed.

Lemma run_callbacks_ok {A} order (outs : list (Outcome A)) rs :
  OllamaService.run_callbacks order outs = Ok rs <-> outs = map Ok rs.
Proof.
  induction order as [| i rest IH]; simpl; [apply collect_ok |].
  destruct (outs !! i) as [[a | e] |] eqn:Hi; try exact IH.
  split; [discriminate |]. intros ->.
  rewrite list_lookup_fmap in Hi.
  destruct (rs !! i); discriminate.
Qed.

Lemma run_callbacks_raise {A} order (outs : list (Outcome A)) e :
  OllamaService.run_callbacks order outs = Raise e ->
  exists i, outs !! i = Some (Raise e).
Proof.
  induction order as [| i rest IH]; simpl; [apply collect_raise |].
  destruct (outs !! i) as [[a | e0] |] eqn:Hi; try exact IH.
  intros [= ->]. exists i. exact Hi.
Qed.

End Batch.

(** The outcomes of a batch do not depend on the completion order. *)
Lemma request_outcomes_order order env prompts temperature system_prompt w :
  request_outcomes (with_completion_order order env) prompts temperature system_prompt w
  = request_outcomes env prompts temperature system_prompt w.
Proof. reflexivity. Qed.

(** The first request of a batch is sent first, the others follow in the
    world it leaves. *)
Lemma request_outcomes_cons env prompt prompts temperature system_prompt w :
  request_outcomes env (prompt :: prompts) temperature system_prompt w
  = fst (OllamaService.generate_async env prompt temperature system_prompt w)
    :: request_outcomes env prompts temperature system_prompt
         (snd (OllamaService.generate_async env prompt temperature system_prompt w)).
Proof.
  unfold request_outcomes. simpl.
  destruct (OllamaService.generate_async env prompt temperature system_prompt w)
    as [o w1].
  simpl. destruct (OllamaService.spawn_all _ w1) as [os w2]. reflexivity.
Qed.

Lemma sent_all_nil w : sent_all [] w = w.
Proof. destruct w. unfold sent_all. cbn. now rewrite app_nil_r. Qed.

Lemma sent_all_cons payload payloads w :
  sent_all payloads (sent payload w) = sent_all (payload :: payloads) w.
Proof. unfold sent_all, sent. cbn. now rewrite <- app_assoc. Qed.

(** In an open session the request of prompt number [i] is sent after
    the requests of the prompts before it, and its outcome is what
    [generate_async] returns for that prompt at that point. *)
Lemma request_outcomes_lookup env prompts temperature system_prompt w i prompt :
  session w = Some SessionOpen ->
  prompts !! i = Some prompt ->
  request_outcomes env prompts temperature system_prompt w !! i
  = Some (fst (OllamaService.generate_async env prompt temperature system_prompt
                 (sent_all
                    (map (fun p => OllamaService.make_payload env p
                                     temperature system_prompt)
                         (take i prompts)) w))).
Proof.
  revert i w. induction prompts as [| p rest IH]; intros i w Hopen Hi.
  - discriminate.
  - rewrite request_outcomes_cons. destruct i as [| i].
    + injection Hi as ->. cbn. now rewrite sent_all_nil.
    + cbn in Hi. cbn [lookup list_lookup take map].
      pose proof (generate_async_world env temperature system_prompt p w) as Hw.
      rewrite Hopen in Hw. rewrite Hw.
      rewrite (IH i (sent _ w) Hopen Hi). now rewrite sent_all_cons.
Qed.

(** [generate_multiple_async] past its guard: the gather over the batch. *)
Lemma generate_multiple_async_result env prompts temperature system_prompt w :
  session w <> None ->
  fst (OllamaService.generate_multiple_async env prompts temperature system_prompt w)
  = match request_outcomes env prompts temperature system_prompt w with
    | [] => Ok []
    | o :: l =>
        OllamaService.run_callbacks (completion_order env (calls w)) (o :: l)
    end.
Proof.
  intros Hs. unfold OllamaService.generate_multiple_async, request_outcomes.
  destruct (session w); [| congruence].
  unfold OllamaService.gather.
  destruct (OllamaService.spawn_all _ w) as [outs w1]. simpl.
  destruct outs; reflexivity.
Qed.

(** C7. Inside a session, [generate_multiple_async] returns a list exactly
    when every request of the batch succeeded, and the list is then the
    responses of the requests in the order of the prompts, one for each
    prompt, whatever the order in which the requests complete.  When a
    request fails the whole call raises, with the exception of one of the
    failed requests; no shorter list is returned.  In an open session the
    outcome at position [i] is the outcome of the request that carries
    prompt number [i]. *)
Theorem generate_multiple_async_aligned
    env prompts temperature system_prompt w order :
  session w <> None ->
  let outcomes := request_outcomes env prompts temperature system_prompt w in
  let result :=
    fst (OllamaService.generate_multiple_async (with_completion_order order env)
           prompts temperature system_prompt w) in
  length outcomes = length prompts
  /\ (forall responses,
        result = Ok responses <-> outcomes = map Ok responses)
  /\ (forall responses,
        result = Ok responses -> length responses = length prompts)
  /\ (forall e, result = Raise e -> exists i, outcomes !! i = Some (Raise e))
  /\ ((exists i e, outcomes !! i = Some (Raise e)) -> exists e, result = Raise e)
  /\ (session w = Some SessionOpen ->
      forall i prompt,
        prompts !! i = Some prompt ->
        outcomes !! i
        = Some (fst (OllamaService.generate_async env prompt
                       temperature system_prompt
                       (sent_all
                          (map (fun p => OllamaService.make_payload env p
                                           temperature system_prompt)
                               (take i prompts)) w)))).
Proof.
  intros Hs outcomes result.
  assert (Hlen : length outcomes = length prompts).
  { unfold outcomes, request_outcomes.
    rewrite spawn_all_length. apply length_map. }
  assert (Hres : result =
                 match outcomes with
                 | [] => Ok []
                 | o :: l =>
                     OllamaService.run_callbacks (order (calls w)) (o :: l)
                 end).
  { unfold result. rewrite generate_multiple_async_result by exact Hs.
    rewrite request_outcomes_order. reflexivity. }
  assert (Hok : forall responses,
             result = Ok responses <-> outcomes = map Ok responses).
  { intros responses. rewrite Hres.
    destruct outcomes as [| o outs] eqn:Ho.
    - split.
      + intros [= <-]. reflexivity.
      + destruct responses; [reflexivity | discriminate].
    - apply run_callbacks_ok. }
  assert (Hraise : forall e,
             result = Raise e -> exists i, outcomes !! i = Some (Raise e)).
  { intros e. rewrite Hres.
    destruct outcomes as [| o outs] eqn:Ho; [discriminate |].
    apply run_callbacks_raise. }
  split; [exact Hlen |]. split; [exact Hok |].
  split; [| split; [exact Hraise | split]].
  - intros responses Hr. apply Hok in Hr.
    rewrite <- Hlen, Hr. now rewrite length_map.
  - intros (i & e & Hi).
    destruct result as [responses | e']; [| eauto].
    exfalso. pose proof (proj1 (Hok responses) eq_refl) as Hall.
    rewrite Hall, list_lookup_fmap in Hi.
    destruct (responses !! i); discriminate.
  - intros Hopen i prompt Hi. now apply request_outcomes_lookup.
Qed.

Lemma generate_multiple_async_aligned_witness :
  fst (OllamaService.generate_multiple_async
         (with_completion_order (fun _ => [1; 0; 2]%nat) Sample.env_three)
         ["one"; "two"; "three"] (3 # 10) None
         (set_session (Some SessionOpen) fresh))
  = Ok (map (fun k : nat =>
               OllamaResponse.Make (JStr ("summary " +:+ pretty k))
                 (JStr "llama3") JNull JNull JNull JNull)
            [0; 1; 2]%nat).
Proof.
  apply (proj1 (proj2 (generate_multiple_async_aligned Sample.env_three
                         ["one"; "two"; "three"] (3 # 10) None
                         (set_session (Some SessionOpen) fresh)
                         (fun _ => [1; 0; 2]%nat) ltac:(discriminate)))).
  vm_compute. reflexivity.
Defined.

(** C10, as the code has it. Without an open session neither
    [generate_async] nor [generate_multiple_async] sends a request or
    changes anything; and when no session has been created yet
    ([self.session] is [None]) both raise the exception that says the
    session is not initialized. *)
Theorem no_session_no_request env prompt prompts temperature system_prompt w :
  session w <> Some SessionOpen ->
  snd (OllamaService.generate_async env prompt temperature system_prompt w) = w
  /\ snd (OllamaService.generate_multiple_async env prompts
            temperature system_prompt w) = w
  /\ (session w = None ->
      raises_not_initialized
        (OllamaService.generate_async env prompt temperature system_prompt w)
      /\ raises_not_initialized
           (OllamaService.generate_multiple_async env prompts
              temperature system_prompt w)).
Proof.
  intros Hne. split; [| split].
  - now apply generate_async_not_open.
  - unfold OllamaService.generate_multiple_async.
    destruct (session w) eqn:Hs; [| reflexivity].
    unfold OllamaService.gather.
    pose proof (spawn_all_not_open env temperature system_prompt prompts w) as Hw.
    destruct (OllamaService.spawn_all _ w) as [outs w1]. simpl in Hw.
    rewrite Hw by congruence. destruct outs; reflexivity.
  - intros Hs. unfold raises_not_initialized,
      OllamaService.generate_async, OllamaService.generate_multiple_async.
    rewrite Hs. split; reflexivity.
Qed.

Lemma no_session_no_request_witness :
  snd (OllamaService.generate_async Sample.env_ok "Hello" (3 # 10) None fresh)
  = fresh.
Proof.
  apply (proj1 (no_session_no_request Sample.env_ok "Hello" [] (3 # 10) None
                  fresh ltac:(discriminate))).
Defined.

(** C10 as claimed fails once the context manager has been left:
    [self.session] then holds the closed session, the guard lets the call
    through, and the call for an empty batch even returns normally. *)
Lemma closed_session_passes_guard :
  session Sample.after_exit <> Some SessionOpen
  /\ OllamaService.generate_multiple_async Sample.env_ok [] (3 # 10) None
       Sample.after_exit = (Ok [], Sample.after_exit)
  /\ ~ raises_not_initialized
         (OllamaService.generate_multiple_async Sample.env_ok [] (3 # 10) None
            Sample.after_exit)
  /\ fst (OllamaService.generate_async Sample.env_ok "Hello" (3 # 10) None
            Sample.after_exit) = Raise (MkExc RuntimeError "Session is closed")
  /\ ~ raises_not_initialized
         (OllamaService.generate_async Sample.env_ok "Hello" (3 # 10) None
            Sample.after_exit).
Proof.
  split; [discriminate |]. split; [reflexivity |].
  split; [discriminate |]. split; [reflexivity | discriminate].
Qed.

(** ** The prompt builders *)

Lemma prefix_app s rest : String.prefix s (s +:+ rest) = true.
Proof.
  induction s as [| c s IH]; simpl.
  - destruct rest; reflexivity.
  - destruct (ascii_dec c c); [exact IH | congruence].
Qed.

Lemma contains_prefix s hay :
  String.prefix s hay = true -> Py.contains s hay = true.
Proof. destruct hay; cbn [Py.contains]; intros ->; reflexivity. Qed.

(** A text spliced between two others occurs in the whole. *)
Lemma contains_app s before after :
  Py.contains s (before +:+ s +:+ after) = true.
Proof.
  induction before as [| c before IH].
  - change ("" +:+ s +:+ after) with (s +:+ after).
    apply contains_prefix, prefix_app.
  - change (String c before +:+ s +:+ after)
      with (String c (before +:+ s +:+ after)).
    cbn [Py.contains]. rewrite IH. apply orb_true_r.
Qed.

Lemma app_assoc_string (a b c : string) : (a +:+ b) +:+ c = a +:+ (b +:+ c).
Proof. induction a as [| x a IH]; simpl; [reflexivity | now rewrite IH]. Qed.

Lemma length_app_string (a b : string) :
  String.length (a +:+ b) = (String.length a + String.length b)%nat.
Proof. induction a as [| x a IH]; simpl; [reflexivity | now rewrite IH]. Qed.

(** Cancelling a common ending. *)
Lemma app_inv_tail_string (a b tail : string) :
  a +:+ tail = b +:+ tail -> a = b.
Proof.
  revert b. induction a as [| x a IH]; intros [| y b] Heq; simpl in Heq.
  - reflexivity.
  - exfalso. apply (f_equal String.length) in Heq.
    simpl in Heq. rewrite length_app_string in Heq. lia.
  - exfalso. apply (f_equal String.length) in Heq.
    simpl in Heq. rewrite length_app_string in Heq. lia.
  - injection Heq as -> Heq. f_equal. now apply IH.
Qed.

(** The chunk prompt, cut around the chunk text. *)
Lemma chunk_prompt_around_text chunk_text chunk_num total_chunks :
  Prompt._create_chunk_summary_prompt chunk_text chunk_num total_chunks
  = (Prompt.chunk_head +:+ Py.str_int chunk_num +:+ " of "
     +:+ Py.str_int total_chunks +:+ Prompt.chunk_middle)
    +:+ chunk_text +:+ Prompt.chunk_tail.
Proof.
  unfold Prompt._create_chunk_summary_prompt.
  rewrite !app_assoc_string. reflexivity.
Qed.

(** The chunk prompt, cut around the sentence that places the chunk. *)
Lemma chunk_prompt_around_position chunk_text chunk_num total_chunks :
  exists before after,
    Prompt._create_chunk_summary_prompt chunk_text chunk_num total_chunks
    = before
      +:+ ("This is chunk " +:+ Py.str_int chunk_num +:+ " of "
           +:+ Py.str_int total_chunks +:+ " from a larger transcript.")
      +:+ after.
Proof.
  exists (String.substring 0 (String.length Prompt.chunk_head - 14) Prompt.chunk_head).
  exists (String.substring 26 (String.length Prompt.chunk_middle - 26) Prompt.chunk_middle
          +:+ chunk_text +:+ Prompt.chunk_tail).
  unfold Prompt._create_chunk_summary_prompt.
  set (i := Py.str_int chunk_num). set (n := Py.str_int total_chunks).
  set (before := String.substring 0 _ _).
  set (rest := String.substring 26 _ _).
  change Prompt.chunk_head with (before +:+ "This is chunk ").
  change Prompt.chunk_middle with (" from a larger transcript." +:+ rest).
  rewrite !app_assoc_string. reflexivity.
Qed.

(** C8. The prompt builders are functions of their arguments alone (they
    take no world and return a plain string).  The chunk prompt contains
    the chunk text unchanged and the sentence that places the chunk as
    number [chunk_num] of [total_chunks]; the final prompt contains the
    joined summaries unchanged.  Nothing is escaped or removed: at a given
    position different texts give different prompts.  Equal arguments give
    equal prompts. *)
Theorem prompt_builders_verbatim chunk_text chunk_num total_chunks combined :
  let chunk_prompt :=
    Prompt._create_chunk_summary_prompt chunk_text chunk_num total_chunks in
  let final_prompt := Prompt._create_final_summary_prompt combined in
  Py.contains chunk_text chunk_prompt = true
  /\ Py.contains
       ("This is chunk " +:+ Py.str_int chunk_num +:+ " of "
        +:+ Py.str_int total_chunks +:+ " from a larger transcript.")
       chunk_prompt = true
  /\ Py.contains combined final_prompt = true
  /\ (forall text',
        Prompt._create_chunk_summary_prompt text' chunk_num total_chunks
        = chunk_prompt -> text' = chunk_text)
  /\ (forall combined',
        Prompt._create_final_summary_prompt combined' = final_prompt ->
        combined' = combined)
  /\ (forall text' num' total',
        text' = chunk_text -> num' = chunk_num -> total' = total_chunks ->
        Prompt._create_chunk_summary_prompt text' num' total' = chunk_prompt)
  /\ (forall combined',
        combined' = combined ->
        Prompt._create_final_summary_prompt combined' = final_prompt).
Proof.
  intros chunk_prompt final_prompt.
  split; [| split; [| split; [| split; [| split; [| split]]]]].
  - unfold chunk_prompt. rewrite chunk_prompt_around_text. apply contains_app.
  - unfold chunk_prompt.
    destruct (chunk_prompt_around_position chunk_text chunk_num total_chunks)
      as (before & after & ->).
    apply contains_app.
  - apply contains_app.
  - intros text' Heq. unfold chunk_prompt in Heq.
    rewrite !chunk_prompt_around_text in Heq.
    apply (inj (String.app _)) in Heq.
    now apply app_inv_tail_string in Heq.
  - intros combined' Heq.
    apply (inj (String.app _)) in Heq.
    now apply app_inv_tail_string in Heq.
  - intros text' num' total' -> -> ->. reflexivity.
  - intros combined' ->. reflexivity.
Qed.

Lemma prompt_builders_verbatim_witness :
  Py.contains "Alice met Bob."
    (Prompt._create_chunk_summary_prompt "Alice met Bob." 2 5) = true
  /\ Py.contains "This is chunk 2 of 5 from a larger transcript."
       (Prompt._create_chunk_summary_prompt "Alice met Bob." 2 5) = true.
Proof.
  pose proof (prompt_builders_verbatim "Alice met Bob." 2 5 "") as H.
  split; [exact (proj1 H) | exact (proj1 (proj2 H))].
Defined.

(** ** The chunk summaries *)

Lemma strip_contents_length responses sums :
  strip_contents responses = Ok sums -> length sums = length responses.
Proof.
  revert sums. induction responses as [| r rest IH]; intros sums; simpl.
  - intros [= <-]. reflexivity.
  - destruct (json_strip (OllamaResponse.content r)); [| discriminate].
    destruct (strip_contents rest) as [l | e]; [| discriminate].
    intros [= <-]. simpl. f_equal. now apply IH.
Qed.

(** Leaving the context manager closes the session and keeps the outcome
    of the body. *)
Lemma finally_aexit {A} (body : M A) w :
  finally body OllamaService.aexit w
  = (fst (body w), snd (OllamaService.aexit (snd (body w)))).
Proof.
  unfold finally. destruct (body w) as [r w1]. simpl.
  unfold OllamaService.aexit. destruct (session w1); reflexivity.
Qed.

(** The summaries of a batch: the stripped contents of the responses
    that [generate_multiple_async] returns inside a new session. *)
Lemma process_chunks_result env prompts w :
  fst (_process_chunks_async env prompts w)
  = match fst (OllamaService.generate_multiple_async env prompts
                 (temperature (config env)) None
                 (set_session (Some SessionOpen) w)) with
    | Ok responses => strip_contents responses
    | Raise e => Raise e
    end.
Proof.
  unfold _process_chunks_async, OllamaService.async_with.
  unfold bind at 1. unfold OllamaService.aenter at 1.
  rewrite finally_aexit. cbn [fst]. unfold bind, lift.
  destruct (OllamaService.generate_multiple_async _ _ _ _ _) as [[responses | e] w1];
    reflexivity.
Qed.

(** A finished batch has one summary for each prompt. *)
Lemma process_chunks_length env prompts w sums w' :
  _process_chunks_async env prompts w = (Ok sums, w') ->
  length sums = length prompts.
Proof.
  intros Hrun. apply (f_equal fst) in Hrun. cbn [fst] in Hrun.
  rewrite process_chunks_result in Hrun.
  rewrite generate_multiple_async_result in Hrun by discriminate.
  pose proof (spawn_all_length
    (map (fun prompt => OllamaService.generate_async env prompt
                          (temperature (config env)) None) prompts)
    (set_session (Some SessionOpen) w)) as Hlen.
  rewrite length_map in Hlen.
  fold (request_outcomes env prompts (temperature (config env)) None
          (set_session (Some SessionOpen) w)) in Hlen.
  destruct (request_outcomes _ _ _ _ _) as [| o l] eqn:Houts.
  - apply strip_contents_length in Hrun. simpl in *. congruence.
  - destruct (OllamaService.run_callbacks _ (o :: l)) as [responses | e] eqn:Hr;
      [| discriminate].
    apply run_callbacks_ok in Hr. apply strip_contents_length in Hrun.
    rewrite Hrun, <- Hlen, Hr. now rewrite length_map.
Qed.

(** ** The runs of the workflow *)

Lemma chunk_prompts_from_length i total chunks :
  length (Prompt.chunk_prompts_from i total chunks) = length chunks.
Proof.
  revert i. induction chunks as [| c rest IH]; intros i; simpl;
    [reflexivity | now rewrite IH].
Qed.

Lemma chunk_prompts_length chunks :
  length (Prompt.chunk_prompts chunks) = length chunks.
Proof. apply chunk_prompts_from_length. Qed.

Lemma Workflow_run env text w :
  exists r w',
    Workflow.summarize_text env text w = (Ok r, w')
    /\ if Py.truthy (Py.strip text)
       then
         match chunk_by_sentences env text with
         | Raise e =>
             r = failure text 0 ("Error chunking text: " +:+ str_exc e)
             /\ posted w' = posted w
         | Ok [] =>
             r = Result.Make "" (Py.len text) 0 0 0 0 None
             /\ posted w' = posted w
         | Ok [chunk] =>
             posted w' = posted w ++ [final_request env (TextChunk.content chunk)]
             /\ ((exists cause,
                    r = failure text 0
                          ("Error creating final summary: " +:+ cause))
                 \/ (exists fs elapsed, r = success text fs 0 elapsed))
         | Ok chunks =>
             (exists cause,
                r = failure text 0 ("Error summarizing chunks: " +:+ cause))
             \/ (exists cause,
                   r = failure text 0
                         ("Error creating final summary: " +:+ cause))
             \/ (exists fs elapsed,
                   r = success text fs (Z.of_nat (length chunks)) elapsed)
         end
       else r = failure text 0 "Empty input text" /\ w' = w.
Proof.
  unfold Workflow.summarize_text, Workflow.invoke, Workflow.nodes.
  cbn [Workflow.run_nodes].
  unfold bind at 1. unfold bind at 1. unfold Workflow.parse_input.
  cbn [State.original_text Workflow.initial_state].
  destruct (Py.truthy (Py.strip text)) eqn:Hblank; cbn [negb].
  2:{ cbn. eexists _, _. split; [reflexivity |]. split; reflexivity. }
  unfold bind at 1. cbn [time_time ret].
  set (w1 := MkWorld _ _ _).
  set (t0 := wall_clock _ _).
  unfold Workflow.chunk_text, Workflow.summarize_chunks, Workflow.create_final_summary.
  cbn.
  destruct (chunk_by_sentences env text) as [[| c [| c' cs]] | e]; cbn.
  - (* no chunks: nothing to summarize, nothing to reduce *)
    eexists _, _. split; [reflexivity |]. split; reflexivity.
  - (* one chunk: the reduction is the only request *)
    unfold try_except, bind. cbn.
    pose proof (generate_sync_world env
      (Prompt._create_final_summary_prompt (TextChunk.content c))
      (temperature (config env)) None w1) as Hw.
    destruct (OllamaService.generate_sync env _ _ _ w1) as [[response | e] w2];
      cbn in Hw; subst w2; cbn.
    + destruct (json_strip (OllamaResponse.content response)) as [fs | e]; cbn.
      * eexists _, _. split; [reflexivity |]. split; [reflexivity |].
        right. eexists _, _. reflexivity.
      * eexists _, _. split; [reflexivity |]. split; [reflexivity |].
        left. eexists. reflexivity.
    + eexists _, _. split; [reflexivity |]. split; [reflexivity |].
      left. eexists. reflexivity.
  - (* several chunks: the batch, then the reduction *)
    unfold try_except at 1. unfold bind at 1. unfold bind at 1.
    destruct (_process_chunks_async env _ w1) as [[sums | e] w2] eqn:Hbatch; cbn.
    + apply process_chunks_length in Hbatch.
      rewrite chunk_prompts_length in Hbatch.
      destruct sums as [| s1 sums]; [discriminate |]. cbn.
      unfold try_except, bind. cbn.
      destruct (OllamaService.generate_sync env _ _ _ w2) as [[response | e] w3];
        cbn.
      * destruct (json_strip (OllamaResponse.content response)) as [fs | e]; cbn.
        -- eexists _, _. split; [reflexivity |].
           right. right. eexists _, _. unfold success.
           cbn in Hbatch. rewrite Hbatch. reflexivity.
        -- eexists _, _. split; [reflexivity |].
           right. left. eexists. reflexivity.
      * eexists _, _. split; [reflexivity |].
        right. left. eexists. reflexivity.
    + eexists _, _. split; [reflexivity |]. left. eexists. reflexivity.
  - (* the chunker raises *)
    eexists _, _. split; [reflexivity |]. split; reflexivity.
Qed.

(** ** The runs of the simple summarizer *)

Lemma Simple_run env text w :
  exists r w',
    Simple.summarize_text env text w = (Ok r, w')
    /\ match chunk_by_sentences env text with
       | Raise e =>
           (exists elapsed, r = failure text elapsed (str_exc e))
           /\ posted w' = posted w
       | Ok [] =>
           (exists elapsed,
              r = Result.Make Simple.no_content (Py.len text) 0 0 elapsed 0
                    (Some "No chunks created from input text"))
           /\ posted w' = posted w
       | Ok [chunk] =>
           posted w' = posted w ++ [final_request env (TextChunk.content chunk)]
           /\ ((exists elapsed msg, r = failure text elapsed msg)
               \/ (exists fs elapsed, r = success text fs 1 elapsed))
       | Ok chunks =>
           (exists elapsed msg, r = failure text elapsed msg)
           \/ (exists fs elapsed,
                 r = success text fs (Z.of_nat (length chunks)) elapsed)
       end.
Proof.
  unfold Simple.summarize_text.
  unfold bind at 1. cbn [time_time].
  set (w1 := MkWorld _ _ _).
  set (t0 := wall_clock _ _).
  unfold try_except. unfold bind at 1. unfold lift at 1.
  destruct (chunk_by_sentences env text) as [[| c [| c' cs]] | e]; cbn.
  - eexists _, _. split; [reflexivity |]. split; [| reflexivity].
    eexists. reflexivity.
  - unfold bind.
    pose proof (generate_sync_world env
      (Prompt._create_final_summary_prompt (TextChunk.content c))
      (temperature (config env)) None w1) as Hw.
    destruct (OllamaService.generate_sync env _ _ _ w1) as [[response | e] w2];
      cbn in Hw; subst w2; cbn.
    + destruct (json_strip (OllamaResponse.content response)) as [fs | e]; cbn.
      * eexists _, _. split; [reflexivity |]. split; [reflexivity |].
        right. eexists _, _. reflexivity.
      * eexists _, _. split; [reflexivity |]. split; [reflexivity |].
        left. eexists _, _. reflexivity.
    + eexists _, _. split; [reflexivity |]. split; [reflexivity |].
      left. eexists _, _. reflexivity.
  - unfold bind.
    destruct (_process_chunks_async env _ w1) as [[sums | e] w2]; cbn.
    + destruct (OllamaService.generate_sync env _ _ _ w2) as [[response | e] w3];
        cbn.
      * destruct (json_strip (OllamaResponse.content response)) as [fs | e]; cbn.
        -- eexists _, _. split; [reflexivity |].
           right. eexists _, _. reflexivity.
        -- eexists _, _. split; [reflexivity |].
           left. eexists _, _. reflexivity.
      * eexists _, _. split; [reflexivity |].
        left. eexists _, _. reflexivity.
    + eexists _, _. split; [reflexivity |]. left. eexists _, _. reflexivity.
  - eexists _, _. split; [reflexivity |]. split; [| reflexivity].
    eexists. reflexivity.
Qed.

(** ** The results *)

Lemma truthy_len fs : Py.truthy fs = (0 <? Py.len fs).
Proof. destruct fs; reflexivity. Qed.

Lemma truthy_true s : Py.truthy s = true <-> s <> "".
Proof. destruct s; simpl; split; intros H; congruence. Qed.

(** The ratio of a summary is the ratio of the two lengths it reports. *)
Lemma success_ratio text fs n elapsed :
  (Result.compression_ratio (success text fs n elapsed)
   == expected_ratio (success text fs n elapsed))%Q.
Proof.
  unfold expected_ratio, success, ratio_of. cbn [Result.summary_length
    Result.original_length Result.compression_ratio].
  rewrite truthy_len. reflexivity.
Qed.

(** C1 as claimed fails in two ways.  A reply of whitespace is accepted
    as a summary, so a text of twelve characters gets an empty summary
    and no error, in both summarizers.  And for blank text the simple
    summarizer fills both the summary and the error. *)
Lemma blank_reply_is_no_error :
  (exists r,
      fst (Workflow.summarize_text Sample.env_blank_reply "Hello world." fresh) = Ok r
      /\ Result.error r = None /\ Result.summary r = ""
      /\ Result.original_length r = 12
      /\ ~ promised_outcome r)
  /\ (exists r,
        fst (Simple.summarize_text Sample.env_blank_reply "Hello world." fresh) = Ok r
        /\ Result.error r = None /\ Result.summary r = ""
        /\ Result.original_length r = 12
        /\ ~ promised_outcome r)
  /\ (exists r,
        fst (Simple.summarize_text Sample.env_ok "   " fresh) = Ok r
        /\ Result.error r = Some "No chunks created from input text"
        /\ Result.summary r = "No content to summarize."
        /\ ~ promised_outcome r).
Proof.
  split; [| split].
  - eexists. split; [vm_compute; reflexivity |].
    cbn. repeat split.
    intros [[_ Hs] | [He _]];
      [apply Hs; reflexivity | apply He; reflexivity].
  - eexists. split; [vm_compute; reflexivity |].
    cbn. repeat split.
    intros [[_ Hs] | [He _]];
      [apply Hs; reflexivity | apply He; reflexivity].
  - eexists. split; [vm_compute; reflexivity |].
    cbn. repeat split.
    intros [[He _] | [_ Hs]]; discriminate.
Qed.

(** C2, as the code has it. Empty or whitespace-only text makes no
    backend call and is reported with [chunks_processed = 0] and an
    error: the workflow returns the error "Empty input text" with an empty
    summary and leaves everything as it was; the simple summarizer, when
    its chunker yields no chunk for the text, returns the marker summary
    together with the error "No chunks created from input text". *)
Theorem empty_input_is_reported env text w :
  Py.strip text = "" ->
  Workflow.summarize_text env text w
  = (Ok (failure text 0 "Empty input text"), w)
  /\ (chunk_by_sentences env text = Ok [] ->
      exists elapsed w',
        Simple.summarize_text env text w
        = (Ok (Result.Make "No content to summarize." (Py.len text) 0 0
                 elapsed 0 (Some "No chunks created from input text")), w')
        /\ posted w' = posted w).
Proof.
  intros Hblank. split.
  - destruct (Workflow_run env text w) as (r & w' & Hrun & Hshape).
    rewrite Hblank in Hshape. cbn in Hshape.
    destruct Hshape as [-> ->]. exact Hrun.
  - intros Hnone.
    destruct (Simple_run env text w) as (r & w' & Hrun & Hshape).
    rewrite Hnone in Hshape. destruct Hshape as [[elapsed ->] Hposted].
    exists elapsed, w'. split; [exact Hrun | exact Hposted].
Qed.

Lemma empty_input_is_reported_witness :
  Workflow.summarize_text Sample.env_ok "   " fresh
  = (Ok (failure "   " 0 "Empty input text"), fresh).
Proof.
  apply (proj1 (empty_input_is_reported Sample.env_ok "   " fresh eq_refl)).
Defined.

(** C2 as claimed fails: for the empty text and for whitespace, both
    summarizers set [error]. *)
Lemma empty_input_sets_error :
  (exists r,
      fst (Workflow.summarize_text Sample.env_ok "" fresh) = Ok r
      /\ Result.error r = Some "Empty input text"
      /\ Result.summary r = ""
      /\ ~ promised_empty_result r)
  /\ (exists r,
        fst (Workflow.summarize_text Sample.env_ok "   " fresh) = Ok r
        /\ Result.error r = Some "Empty input text"
        /\ ~ promised_empty_result r)
  /\ (exists r,
        fst (Simple.summarize_text Sample.env_ok "" fresh) = Ok r
        /\ Result.error r = Some "No chunks created from input text"
        /\ ~ promised_empty_result r)
  /\ (exists r,
        fst (Simple.summarize_text Sample.env_ok "   " fresh) = Ok r
        /\ Result.error r = Some "No chunks created from input text"
        /\ ~ promised_empty_result r).
Proof.
  repeat split; eexists; (split; [vm_compute; reflexivity |]);
    cbn; repeat split; intros [He _]; discriminate.
Qed.

(** What the two summarizers report as [chunks_processed] when the run
    succeeds: the simple summarizer the number of chunks; the workflow
    the number of chunks when there are several, but 0 for one chunk,
    where [summarize_chunks] returns before it writes the count. *)
Lemma chunks_processed_of_success env text w chunks :
  chunk_by_sentences env text = Ok chunks ->
  chunks <> [] ->
  (forall r w',
      Simple.summarize_text env text w = (Ok r, w') ->
      Result.error r = None ->
      Result.chunks_processed r = Z.of_nat (length chunks))
  /\ (forall r w',
        Workflow.summarize_text env text w = (Ok r, w') ->
        Result.error r = None ->
        Py.strip text <> "" ->
        Result.chunks_processed r
        = match chunks with
          | [_] => 0
          | _ => Z.of_nat (length chunks)
          end).
Proof.
  intros Hchunks Hne. split.
  - intros r0 w0 Hr0 Herr.
    destruct (Simple_run env text w) as (r & w' & Hrun & Hshape).
    rewrite Hrun in Hr0. injection Hr0 as <- <-.
    rewrite Hchunks in Hshape.
    destruct chunks as [| c [| c' cs]]; [congruence | |].
    + destruct Hshape as [_ [(elapsed & msg & ->) | (fs & elapsed & ->)]];
        [discriminate | reflexivity].
    + destruct Hshape as [(elapsed & msg & ->) | (fs & elapsed & ->)];
        [discriminate | reflexivity].
  - intros r0 w0 Hr0 Herr Hblank.
    destruct (Workflow_run env text w) as (r & w' & Hrun & Hshape).
    rewrite Hrun in Hr0. injection Hr0 as <- <-.
    apply truthy_true in Hblank. rewrite Hblank, Hchunks in Hshape.
    destruct chunks as [| c [| c' cs]]; [congruence | |].
    + destruct Hshape as [_ [[cause ->] | (fs & elapsed & ->)]];
        [discriminate | reflexivity].
    + destruct Hshape as [[cause ->] | [[cause ->] | (fs & elapsed & ->)]];
        [discriminate | discriminate | reflexivity].
Qed.

(** C3 fails in the workflow. A text of one chunk is summarized with one
    request and without error, and the workflow reports
    [chunks_processed = 0]; the simple summarizer reports 1 for the same
    run.  With three chunks both report 3. *)
Theorem single_chunk_counted_as_zero :
  Workflow.summarize_text Sample.env_ok "Hello world." fresh
  = (Ok (Result.Make "A summary." 12 10 0 1 (12 # 10) None),
     MkWorld [final_request Sample.env_ok "Hello world."] 2 None)
  /\ fst (Simple.summarize_text Sample.env_ok "Hello world." fresh)
     = Ok (Result.Make "A summary." 12 10 1 1 (12 # 10) None)
  /\ (exists r,
        fst (Workflow.summarize_text Sample.env_three "One. Two. Three." fresh) = Ok r
        /\ Result.error r = None /\ Result.chunks_processed r = 3)
  /\ (exists r,
        fst (Simple.summarize_text Sample.env_three "One. Two. Three." fresh) = Ok r
        /\ Result.error r = None /\ Result.chunks_processed r = 3).
Proof.
  split; [vm_compute; reflexivity |].
  split; [vm_compute; reflexivity |].
  split; eexists; (split; [vm_compute; reflexivity |]); split; reflexivity.
Qed.

(** C4. A text that the chunker returns as exactly one chunk costs exactly
    one backend request, in both summarizers, whether it succeeds or not:
    the request for the final summary of the chunk's own content.  The
    workflow skips the chunk-level call and goes straight to the
    reduction; the simple summarizer sends the final-summary request and
    has no reduction after it.  (The workflow consults the chunker only
    for text that is not blank.) *)
Theorem single_chunk_one_request env text w chunk :
  chunk_by_sentences env text = Ok [chunk] ->
  let request := final_request env (TextChunk.content chunk) in
  (posted (snd (Simple.summarize_text env text w)) = posted w ++ [request]
   /\ calls (snd (Simple.summarize_text env text w)) = S (calls w))
  /\ (Py.strip text <> "" ->
      posted (snd (Workflow.summarize_text env text w)) = posted w ++ [request]
      /\ calls (snd (Workflow.summarize_text env text w)) = S (calls w)).
Proof.
  intros Hone request.
  assert (Hcalls : forall w', posted w' = posted w ++ [request] ->
                              calls w' = S (calls w)).
  { intros w' Hp. unfold calls. rewrite Hp, length_app. simpl. lia. }
  split.
  - destruct (Simple_run env text w) as (r & w' & Hrun & Hshape).
    rewrite Hone in Hshape. destruct Hshape as [Hposted _].
    rewrite Hrun. cbn [snd]. split; [exact Hposted | now apply Hcalls].
  - intros Hblank.
    destruct (Workflow_run env text w) as (r & w' & Hrun & Hshape).
    apply truthy_true in Hblank. rewrite Hblank, Hone in Hshape.
    destruct Hshape as [Hposted _].
    rewrite Hrun. cbn [snd]. split; [exact Hposted | now apply Hcalls].
Qed.

Lemma single_chunk_one_request_witness :
  posted (snd (Workflow.summarize_text Sample.env_ok "Hello world." fresh))
  = [final_request Sample.env_ok "Hello world."]
  /\ calls (snd (Workflow.summarize_text Sample.env_ok "Hello world." fresh)) = 1%nat.
Proof.
  apply (proj2 (single_chunk_one_request Sample.env_ok "Hello world." fresh
                  (TextChunk.Make "Hello world." 0 0 12) eq_refl)).
  discriminate.
Defined.

(** C6. In every result of [summarize_text], of either summarizer,
    [compression_ratio] is [original_length / summary_length] when
    [summary_length] is positive and 0 when it is 0; the division is
    never attempted for an empty summary.  A text of 1000 characters with
    a summary of 100 has the ratio 10. *)
Theorem compression_ratio_law :
  (forall env text w,
      exists r w',
        Workflow.summarize_text env text w = (Ok r, w')
        /\ 0 <= Result.summary_length r
        /\ (Result.compression_ratio r == expected_ratio r)%Q)
  /\ (forall env text w,
        exists r w',
          Simple.summarize_text env text w = (Ok r, w')
          /\ 0 <= Result.summary_length r
          /\ (Result.compression_ratio r == expected_ratio r)%Q)
  /\ (exists r,
        fst (Workflow.summarize_text Sample.env_hundred Sample.text_1000 fresh) = Ok r
        /\ Result.original_length r = 1000
        /\ Result.summary_length r = 100
        /\ (Result.compression_ratio r == 10)%Q)
  /\ (exists r,
        fst (Simple.summarize_text Sample.env_hundred Sample.text_1000 fresh) = Ok r
        /\ Result.original_length r = 1000
        /\ Result.summary_length r = 100
        /\ (Result.compression_ratio r == 10)%Q)
  /\ (exists r,
        fst (Simple.summarize_text Sample.env_blank_reply Sample.text_1000 fresh) = Ok r
        /\ Result.original_length r = 1000
        /\ Result.summary_length r = 0
        /\ (Result.compression_ratio r == 0)%Q).
Proof.
  assert (Hsuccess : forall text fs n elapsed,
             0 <= Result.summary_length (success text fs n elapsed)
             /\ (Result.compression_ratio (success text fs n elapsed)
                 == expected_ratio (success text fs n elapsed))%Q).
  { intros. split; [apply Nat2Z.is_nonneg | apply success_ratio]. }
  assert (Hfailure : forall text elapsed msg,
             0 <= Result.summary_length (failure text elapsed msg)
             /\ (Result.compression_ratio (failure text elapsed msg)
                 == expected_ratio (failure text elapsed msg))%Q).
  { intros. split; [reflexivity | reflexivity]. }
  split; [| split; [| split; [| split]]].
  - intros env text w.
    destruct (Workflow_run env text w) as (r & w' & Hrun & Hshape).
    exists r, w'. split; [exact Hrun |].
    destruct (Py.truthy (Py.strip text)).
    + destruct (chunk_by_sentences env text) as [[| c [| c' cs]] | e].
      * destruct Hshape as [-> _]. split; reflexivity.
      * destruct Hshape as [_ [[cause ->] | (fs & elapsed & ->)]]; auto.
      * destruct Hshape as [[cause ->] | [[cause ->] | (fs & elapsed & ->)]]; auto.
      * destruct Hshape as [-> _]. auto.
    + destruct Hshape as [-> _]. auto.
  - intros env text w.
    destruct (Simple_run env text w) as (r & w' & Hrun & Hshape).
    exists r, w'. split; [exact Hrun |].
    destruct (chunk_by_sentences env text) as [[| c [| c' cs]] | e].
    + destruct Hshape as [[elapsed ->] _]. split; reflexivity.
    + destruct Hshape as [_ [(elapsed & msg & ->) | (fs & elapsed & ->)]]; auto.
    + destruct Hshape as [(elapsed & msg & ->) | (fs & elapsed & ->)]; auto.
    + destruct Hshape as [[elapsed ->] _]. auto.
  - eexists. split; [vm_compute; reflexivity |]. repeat split.
  - eexists. split; [vm_compute; reflexivity |]. repeat split.
  - eexists. split; [vm_compute; reflexivity |]. repeat split.
Qed.

(** ** The error short-circuit of the workflow *)

Section ShortCircuit.

Variable env : Env.

Lemma chunk_text_skips : skips env Workflow.chunk_text.
Proof. intros state w H. unfold Workflow.chunk_text. now rewrite H. Qed.

Lemma summarize_chunks_skips : skips env Workflow.summarize_chunks.
Proof. intros state w H. unfold Workflow.summarize_chunks. now rewrite H. Qed.

Lemma create_final_summary_skips : skips env Workflow.create_final_summary.
Proof. intros state w H. unfold Workflow.create_final_summary. now rewrite H. Qed.

Lemma parse_input_error_ok : keeps_error_ok env Workflow.parse_input.
Proof.
  intros state w Hok. unfold Workflow.parse_input.
  destruct (negb _).
  - eexists _, _. split; [reflexivity | reflexivity].
  - eexists _, _. split; [reflexivity | exact Hok].
Qed.

Lemma chunk_text_error_ok : keeps_error_ok env Workflow.chunk_text.
Proof.
  intros state w Hok. unfold Workflow.chunk_text.
  destruct (State.has_error state); [eexists _, _; split; [reflexivity | exact Hok] |].
  unfold try_except, bind, lift, Workflow.stats_of.
  destruct (chunk_by_sentences env _) as [chunks | e].
  - destruct (State.processing_stats state) as [ps |]; cbn.
    + eexists _, _. split; [reflexivity | exact Hok].
    + eexists _, _. split; [reflexivity | reflexivity].
  - eexists _, _. split; [reflexivity | reflexivity].
Qed.

Lemma summarize_chunks_error_ok : keeps_error_ok env Workflow.summarize_chunks.
Proof.
  intros state w Hok. unfold Workflow.summarize_chunks.
  destruct (State.has_error state || State.missing (State.chunks state));
    [eexists _, _; split; [reflexivity | exact Hok] |].
  unfold try_except.
  assert (Hbatch : forall chunks,
             exists state' w',
               match
                 (chunk_summaries <-
                    _process_chunks_async env (Prompt.chunk_prompts chunks) ;;
                  ps <- Workflow.stats_of state
                          (MkExc TypeError
                             "'NoneType' object does not support item assignment") ;;
                  ret (State.with_processing_stats
                         (Stats.with_chunks_summarized
                            (Z.of_nat (length chunk_summaries)) ps)
                         (State.with_chunk_summaries chunk_summaries state))) w
               with
               | (Ok a, w') => (Ok a, w')
               | (Raise e, w') =>
                   ret (State.with_error
                          ("Error summarizing chunks: " +:+ str_exc e) state) w'
               end = (Ok state', w') /\ error_ok state').
  { intros chunks. unfold bind, Workflow.stats_of.
    destruct (_process_chunks_async env _ w) as [[sums | e] w1].
    - destruct (State.processing_stats state) as [ps |]; cbn.
      + eexists _, _. split; [reflexivity | exact Hok].
      + eexists _, _. split; [reflexivity | reflexivity].
    - eexists _, _. split; [reflexivity | reflexivity]. }
  destruct (State.chunks state) as [[| c [| c' cs]] |].
  - apply Hbatch.
  - eexists _, _. split; [reflexivity | exact Hok].
  - apply Hbatch.
  - eexists _, _. split; [reflexivity | reflexivity].
Qed.

Lemma create_final_summary_error_ok : keeps_error_ok env Workflow.create_final_summary.
Proof.
  intros state w Hok. unfold Workflow.create_final_summary.
  destruct (State.has_error state || State.missing (State.chunk_summaries state));
    [eexists _, _; split; [reflexivity | exact Hok] |].
  unfold try_except, bind, lift, Workflow.stats_of.
  destruct (State.chunk_summaries state) as [chunk_summaries |]; cbn;
    [| eexists _, _; split; [reflexivity | reflexivity]].
  destruct (OllamaService.generate_sync env _ _ _ w) as [[response | e] w1].
  - destruct (json_strip (OllamaResponse.content response)) as [fs | e]; cbn.
    + destruct (State.processing_stats state) as [ps |]; cbn.
      * eexists _, _. split; [reflexivity | exact Hok].
      * eexists _, _. split; [reflexivity | reflexivity].
    + eexists _, _. split; [reflexivity | reflexivity].
  - eexists _, _. split; [reflexivity | reflexivity].
Qed.

Lemma nodes_keep_error_ok : Forall (keeps_error_ok env) Workflow.nodes.
Proof.
  repeat constructor;
    [apply parse_input_error_ok | apply chunk_text_error_ok
     | apply summarize_chunks_error_ok | apply create_final_summary_error_ok].
Qed.

(** Running nodes one after another, the error stays properly set. *)
Lemma run_nodes_error_ok l state w :
  Forall (keeps_error_ok env) l ->
  error_ok state ->
  exists state' w',
    Workflow.run_nodes env l state w = (Ok state', w') /\ error_ok state'.
Proof.
  intros Hl. revert state w.
  induction Hl as [| node rest Hnode _ IH]; intros state w Hok; cbn.
  - eexists _, _. split; [reflexivity | exact Hok].
  - unfold bind. destruct (Hnode state w Hok) as (s1 & w1 & -> & Hok1).
    apply IH, Hok1.
Qed.

(** Nodes that skip leave a failed state as it is, however many follow. *)
Lemma run_nodes_skip l state w :
  Forall (skips env) l ->
  State.has_error state = true ->
  Workflow.run_nodes env l state w = (Ok state, w).
Proof.
  intros Hl Herr. induction Hl as [| node rest Hnode _ IH]; cbn.
  - reflexivity.
  - unfold bind. rewrite (Hnode state w Herr). exact IH.
Qed.

Lemma run_nodes_app l1 l2 state w :
  Workflow.run_nodes env (l1 ++ l2) state w
  = (state' <- Workflow.run_nodes env l1 state ;;
     Workflow.run_nodes env l2 state') w.
Proof.
  revert state w. induction l1 as [| node rest IH]; intros state w; cbn.
  - reflexivity.
  - unfold bind. destruct (node env state w) as [[s1 | e] w1]; [| reflexivity].
    rewrite IH. reflexivity.
Qed.

End ShortCircuit.

(** C5. Whatever node of the workflow first leaves a state with [error]
    set, the message is not empty, and on that state each of [chunk_text],
    [summarize_chunks] and [create_final_summary] returns the state as it
    is and leaves the world as it is, so that no request is sent any
    more; the nodes that remain do nothing, and [summarize_text] returns
    the result that carries exactly this message and an empty summary. *)
Theorem error_short_circuit env text w k state w1 msg :
  Workflow.run_nodes env (take k Workflow.nodes) (Workflow.initial_state text) w
  = (Ok state, w1) ->
  State.error state = Some msg ->
  msg <> ""
  /\ Workflow.chunk_text env state w1 = (Ok state, w1)
  /\ Workflow.summarize_chunks env state w1 = (Ok state, w1)
  /\ Workflow.create_final_summary env state w1 = (Ok state, w1)
  /\ Workflow.run_nodes env (drop k Workflow.nodes) state w1 = (Ok state, w1)
  /\ Workflow.summarize_text env text w
     = (Ok (Result.Make "" (Py.len text) 0 0 0 0 (Some msg)), w1).
Proof.
  intros Hrun Hmsg.
  (* the message was set by a node, so it is not empty *)
  assert (Herr : State.has_error state = true).
  { destruct (run_nodes_error_ok env (take k Workflow.nodes)
                (Workflow.initial_state text) w) as (s & w' & Hs & Hok).
    - apply Forall_take, nodes_keep_error_ok.
    - exact I.
    - rewrite Hrun in Hs. injection Hs as <- <-.
      unfold error_ok in Hok. unfold State.has_error.
      rewrite Hmsg in *. exact Hok. }
  assert (Hne : msg <> "").
  { unfold State.has_error in Herr. rewrite Hmsg in Herr.
    now apply truthy_true. }
  (* the nodes still to run all skip *)
  assert (Hrest : Forall (skips env) (drop k Workflow.nodes)).
  { destruct k as [| k].
    - cbn in Hrun. injection Hrun as <- <-. discriminate.
    - change (drop (S k) Workflow.nodes)
        with (drop k [Workflow.chunk_text; Workflow.summarize_chunks;
                      Workflow.create_final_summary]).
      apply Forall_drop. repeat constructor.
      + apply chunk_text_skips.
      + apply summarize_chunks_skips.
      + apply create_final_summary_skips. }
  assert (Hskip : Workflow.run_nodes env (drop k Workflow.nodes) state w1
                  = (Ok state, w1)).
  { now apply run_nodes_skip. }
  split; [exact Hne |].
  split; [now apply chunk_text_skips |].
  split; [now apply summarize_chunks_skips |].
  split; [now apply create_final_summary_skips |].
  split; [exact Hskip |].
  unfold Workflow.summarize_text, Workflow.invoke.
  rewrite <- (take_drop k Workflow.nodes).
  unfold bind at 1. rewrite run_nodes_app.
  unfold bind at 1. rewrite Hrun, Hskip, Herr.
  unfold Workflow.failed. rewrite Hmsg. reflexivity.
Qed.

Lemma error_short_circuit_witness :
  Workflow.summarize_text Sample.env_chunk_fail "Hello." fresh
  = (Ok (Result.Make "" 6 0 0 0 0
           (Some "Error chunking text: overlap must be smaller than chunk size")),
     MkWorld [] 1 None).
Proof.
  refine (proj2 (proj2 (proj2 (proj2 (proj2
    (error_short_circuit Sample.env_chunk_fail "Hello." fresh 2
       (State.Make "Hello." None None ""
          (Some (Stats.initial 0 "Hello."))
          (Some "Error chunking text: overlap must be smaller than chunk size"))
       (MkWorld [] 1 None)
       "Error chunking text: overlap must be smaller than chunk size"
       _ _)))))).
  - vm_compute. reflexivity.
  - reflexivity.
Defined.

(** * Further properties *)

(** ** The two summarizers as straight-line programs *)

#[local] Arguments reduction : simpl never.
#[local] Arguments chunk_summaries_of : simpl never.

(** The workflow graph, run from its initial state, comes to this: the
    guard on blank text, the chunker, the map step, the reduce step. *)
Lemma Workflow_steps env text w :
  Workflow.summarize_text env text w
  = if Py.truthy (Py.strip text)
    then
      match chunk_by_sentences env text with
      | Raise e =>
          (Ok (failure text 0 ("Error chunking text: " +:+ str_exc e)), tick w)
      | Ok [] => (Ok (Result.Make "" (Py.len text) 0 0 0 0 None), tick w)
      | Ok chunks =>
          match chunk_summaries_of env chunks (tick w) with
          | (Raise e, w2) =>
              (Ok (failure text 0 ("Error summarizing chunks: " +:+ str_exc e)),
               w2)
          | (Ok summaries, w2) =>
              match reduction env summaries w2 with
              | (Raise e, w3) =>
                  (Ok (failure text 0
                         ("Error creating final summary: " +:+ str_exc e)), w3)
              | (Ok fs, w3) =>
                  (Ok (success text fs
                         match chunks with
                         | [_] => 0
                         | _ => Z.of_nat (length chunks)
                         end
                         (now env w3 - now env w)), tick w3)
              end
          end
      end
    else (Ok (failure text 0 "Empty input text"), w).
Proof.
  unfold Workflow.summarize_text, Workflow.invoke, Workflow.nodes.
  cbn [Workflow.run_nodes].
  unfold bind at 1. unfold bind at 1. unfold Workflow.parse_input.
  cbn [State.original_text Workflow.initial_state].
  destruct (Py.truthy (Py.strip text)) eqn:Hblank; cbn [negb];
    [| reflexivity].
  unfold bind at 1. cbn [time_time ret]. fold (tick w). fold (now env w).
  unfold Workflow.chunk_text, Workflow.summarize_chunks,
    Workflow.create_final_summary.
  cbn.
  destruct (chunk_by_sentences env text) as [[| c [| c' cs]] | e]; cbn;
    try reflexivity.
  - unfold chunk_summaries_of, reduction, ret, try_except, bind. cbn.
    destruct (OllamaService.generate_sync env _ _ _ (tick w))
      as [[response | e] w2]; cbn; [| reflexivity].
    destruct (json_strip (OllamaResponse.content response)) as [fs | e]; cbn;
      reflexivity.
  - unfold chunk_summaries_of.
    unfold try_except at 1. unfold bind at 1. unfold bind at 1.
    destruct (_process_chunks_async env _ (tick w)) as [[sums | e] w2] eqn:Hbatch;
      cbn; [| reflexivity].
    apply process_chunks_length in Hbatch.
    rewrite chunk_prompts_length in Hbatch.
    destruct sums as [| s1 sums]; [discriminate |]. cbn.
    unfold reduction, try_except, bind. cbn.
    destruct (OllamaService.generate_sync env _ _ _ w2) as [[response | e] w3];
      cbn; [| reflexivity].
    destruct (json_strip (OllamaResponse.content response)) as [fs | e]; cbn;
      [| reflexivity].
    unfold success. cbn in Hbatch. rewrite Hbatch. reflexivity.
Qed.

(** The simple summarizer comes to the same steps; it has no guard on
    blank text, reports the elapsed time also on failure, and counts a
    single chunk. *)
Lemma Simple_steps env text w :
  Simple.summarize_text env text w
  = match chunk_by_sentences env text with
    | Raise e =>
        (Ok (failure text (now env (tick w) - now env w) (str_exc e)),
         tick (tick w))
    | Ok [] =>
        (Ok (Result.Make Simple.no_content (Py.len text) 0 0
               (now env (tick w) - now env w) 0
               (Some "No chunks created from input text")), tick (tick w))
    | Ok chunks =>
        match chunk_summaries_of env chunks (tick w) with
        | (Raise e, w2) =>
            (Ok (failure text (now env w2 - now env w) (str_exc e)), tick w2)
        | (Ok summaries, w2) =>
            match reduction env summaries w2 with
            | (Raise e, w3) =>
                (Ok (failure text (now env w3 - now env w) (str_exc e)), tick w3)
            | (Ok fs, w3) =>
                (Ok (success text fs (Z.of_nat (length chunks))
                       (now env w3 - now env w)), tick w3)
            end
        end
    end.
Proof.
  unfold Simple.summarize_text.
  unfold bind at 1. cbn [time_time]. fold (tick w). fold (now env w).
  unfold try_except. unfold bind at 1. unfold lift at 1.
  destruct (chunk_by_sentences env text) as [[| c [| c' cs]] | e]; cbn;
    try reflexivity.
  - unfold chunk_summaries_of, reduction, ret, bind. cbn.
    destruct (OllamaService.generate_sync env _ _ _ (tick w))
      as [[response | e] w2]; cbn; [| reflexivity].
    destruct (json_strip (OllamaResponse.content response)) as [fs | e]; cbn;
      reflexivity.
  - unfold chunk_summaries_of, reduction, bind.
    destruct (_process_chunks_async env _ (tick w)) as [[sums | e] w2];
      cbn; [| reflexivity].
    destruct (OllamaService.generate_sync env _ _ _ w2) as [[response | e] w3];
      cbn; [| reflexivity].
    destruct (json_strip (OllamaResponse.content response)) as [fs | e]; cbn;
      reflexivity.
Qed.

(** ** The service: requests, statuses, failures *)

(** X1. Every call of [generate_sync] sends exactly one request, the
    payload built from its arguments, and touches neither the clock nor
    the session, whether the call returns or raises: there is no retry and
    no second attempt.  Through an open session [generate_async] does the
    same. *)
Theorem one_call_one_request env prompt temperature system_prompt w :
  let payload := OllamaService.make_payload env prompt temperature system_prompt in
  snd (OllamaService.generate_sync env prompt temperature system_prompt w)
  = sent payload w
  /\ calls (snd (OllamaService.generate_sync env prompt temperature
                   system_prompt w)) = S (calls w)
  /\ (session w = Some SessionOpen ->
      snd (OllamaService.generate_async env prompt temperature system_prompt w)
      = sent payload w).
Proof.
  intros payload. split; [apply generate_sync_world | split].
  - rewrite generate_sync_world. unfold calls, sent. cbn.
    rewrite length_app. cbn. lia.
  - intros Hopen. rewrite generate_async_world, Hopen. reflexivity.
Qed.



(** X3. A reply with a status from 400 to 599 makes [generate_sync] raise
    "Error communicating with Ollama: " followed by the text of the
    status error, whatever the body holds; and the body is used for every
    other status, not only for 200.  [generate_async] rejects the same
    replies, and accepts the body for every status below 400. *)
Theorem status_decides env prompt temperature system_prompt w status msg body :
  let payload := OllamaService.make_payload env prompt temperature system_prompt in
  backend env (calls w) payload = Reply status msg body ->
  (400 <= status < 600 ->
   fst (OllamaService.generate_sync env prompt temperature system_prompt w)
   = Raise (OllamaService.communicating (MkExc RequestException msg))
   /\ (session w = Some SessionOpen ->
       fst (OllamaService.generate_async env prompt temperature system_prompt w)
       = Raise (OllamaService.communicating (MkExc ClientError msg))))
  /\ (status < 400 ->
      forall fields,
        body = Ok (JDict fields) ->
        exists r,
          fst (OllamaService.generate_sync env prompt temperature system_prompt w)
          = Ok r
          /\ (session w = Some SessionOpen ->
              fst (OllamaService.generate_async env prompt temperature
                     system_prompt w) = Ok r)).
Proof.
  intros payload Hreply. split.
  - intros [Hlo Hhi].
    assert (H1 : (400 <=? status)%Z = true) by now apply Z.leb_le.
    assert (H2 : (status <? 600)%Z = true) by now apply Z.ltb_lt.
    split.
    + unfold OllamaService.generate_sync, try_except, bind,
        OllamaService.requests_post, OllamaService.send.
      fold payload. rewrite Hreply. simpl.
      unfold OllamaService.requests_raise_for_status. simpl.
      rewrite H1, H2. reflexivity.
    + intros Hopen. unfold OllamaService.generate_async. rewrite Hopen.
      unfold try_except, bind, OllamaService.session_post. rewrite Hopen.
      unfold OllamaService.send. fold payload. rewrite Hreply. simpl.
      unfold OllamaService.aiohttp_raise_for_status. simpl.
      rewrite H1. reflexivity.
  - intros Hlow fields ->.
    assert (H1 : (400 <=? status)%Z = false) by now apply Z.leb_gt.
    eexists. split.
    + unfold OllamaService.generate_sync, try_except, bind,
        OllamaService.requests_post, OllamaService.send.
      fold payload. rewrite Hreply. simpl.
      unfold OllamaService.requests_raise_for_status. simpl.
      rewrite H1. reflexivity.
    + intros Hopen. unfold OllamaService.generate_async. rewrite Hopen.
      unfold try_except, bind, OllamaService.session_post. rewrite Hopen.
      unfold OllamaService.send. fold payload. rewrite Hreply. simpl.
      unfold OllamaService.aiohttp_raise_for_status. simpl.
      rewrite H1. reflexivity.
Qed.

Lemma status_decides_witness :
  fst (OllamaService.generate_sync Sample.env_three_fail "Hello" (3 # 10) None
         (MkWorld [OllamaService.make_payload Sample.env_three_fail
                     "Earlier" (3 # 10) None] 0 None))
  = Raise (MkExc PlainException
             "Error communicating with Ollama: 500, message='Internal Server Error'").
Proof.
  refine (proj1 (proj1 (status_decides Sample.env_three_fail "Hello" (3 # 10) None
                   (MkWorld [OllamaService.make_payload Sample.env_three_fail
                               "Earlier" (3 # 10) None] 0 None)
                   500 "500, message='Internal Server Error'" (Ok JNull) _) _)).
  - reflexivity.
  - lia.
Defined.

(** X4. [generate_async] wraps only the errors of the HTTP client and of
    the JSON decoder.  Anything else that the request raises, a timeout
    for one, reaches the caller as it is, with its own class and its own
    text, where [generate_sync] would have wrapped it. *)
Theorem async_lets_other_errors_through
    env prompt temperature system_prompt w e :
  let payload := OllamaService.make_payload env prompt temperature system_prompt in
  backend env (calls w) payload = PostRaises e ->
  session w = Some SessionOpen ->
  fst (OllamaService.generate_async env prompt temperature system_prompt w)
  = match exc_kind e with
    | ClientError => Raise (OllamaService.communicating e)
    | JSONDecodeError => Raise (OllamaService.parsing e)
    | _ => Raise e
    end
  /\ fst (OllamaService.generate_sync env prompt temperature system_prompt w)
     = match exc_kind e with
       | JSONDecodeError => Raise (OllamaService.parsing e)
       | _ => Raise (OllamaService.communicating e)
       end.
Proof.
  intros payload Hraise Hopen. split.
  - unfold OllamaService.generate_async. rewrite Hopen.
    unfold try_except, bind, OllamaService.session_post. rewrite Hopen.
    unfold OllamaService.send. fold payload. rewrite Hraise. simpl.
    destruct (exc_kind e); reflexivity.
  - unfold OllamaService.generate_sync, try_except, bind,
      OllamaService.requests_post, OllamaService.send.
    fold payload. rewrite Hraise. simpl.
    destruct (exc_kind e); reflexivity.
Qed.

Lemma async_lets_other_errors_through_witness :
  fst (OllamaService.generate_async Sample.env_timeout "Hello" (3 # 10) None
         (set_session (Some SessionOpen) fresh))
  = Raise (MkExc TimeoutError "").
Proof.
  apply (proj1 (async_lets_other_errors_through Sample.env_timeout "Hello"
                  (3 # 10) None (set_session (Some SessionOpen) fresh)
                  (MkExc TimeoutError "") eq_refl eq_refl)).
Defined.

(** X5. For an accepted reply whose body is a JSON object, the response
    hands on what the body holds under [response], [model] and the four
    counters, unchanged and unchecked, [None] standing for a counter that
    is absent; and through an open session [generate_async] returns the
    very response that [generate_sync] returns. *)
Theorem body_fields_are_handed_on
    env prompt temperature system_prompt w status msg fields :
  let payload := OllamaService.make_payload env prompt temperature system_prompt in
  backend env (calls w) payload = Reply status msg (Ok (JDict fields)) ->
  (status < 400)%Z ->
  let response :=
    OllamaResponse.Make
      (default (JStr "") (dict_lookup "response" fields))
      (default (JStr (model_name (config env))) (dict_lookup "model" fields))
      (default JNull (dict_lookup "total_duration" fields))
      (default JNull (dict_lookup "load_duration" fields))
      (default JNull (dict_lookup "prompt_eval_count" fields))
      (default JNull (dict_lookup "eval_count" fields)) in
  fst (OllamaService.generate_sync env prompt temperature system_prompt w)
  = Ok response
  /\ (session w = Some SessionOpen ->
      fst (OllamaService.generate_async env prompt temperature system_prompt w)
      = Ok response).
Proof.
  intros payload Hreply Hlow response.
  assert (H1 : (400 <=? status)%Z = false) by now apply Z.leb_gt.
  split.
  - unfold OllamaService.generate_sync, try_except, bind,
      OllamaService.requests_post, OllamaService.send.
    fold payload. rewrite Hreply. simpl.
    unfold OllamaService.requests_raise_for_status. simpl.
    rewrite H1. reflexivity.
  - intros Hopen. unfold OllamaService.generate_async. rewrite Hopen.
    unfold try_except, bind, OllamaService.session_post. rewrite Hopen.
    unfold OllamaService.send. fold payload. rewrite Hreply. simpl.
    unfold OllamaService.aiohttp_raise_for_status. simpl.
    rewrite H1. reflexivity.
Qed.

Lemma body_fields_are_handed_on_witness :
  fst (OllamaService.generate_sync Sample.env_ok "Hello" (3 # 10) None fresh)
  = Ok (OllamaResponse.Make (JStr " A summary. ") (JStr "llama3")
          JNull JNull JNull JNull).
Proof.
  apply (proj1 (body_fields_are_handed_on Sample.env_ok "Hello" (3 # 10) None
                  fresh 200 ""
                  [("response", JStr " A summary. "); ("model", JStr "llama3")]
                  eq_refl eq_refl)).
Defined.

(** ** The base URL *)

Lemma rstrip_slash_splits s :
  exists slashes,
    all_slashes slashes = true
    /\ s = OllamaService.rstrip_slash s +:+ slashes.
Proof.
  induction s as [| c r (slashes & Hall & Heq)].
  - exists "". split; reflexivity.
  - cbn [OllamaService.rstrip_slash].
    destruct (OllamaService.rstrip_slash r) as [| c' r'] eqn:Hr.
    + destruct (Ascii.eqb c "/") eqn:Hc.
      * exists (String c slashes). cbn. rewrite Hc, Hall.
        split; [reflexivity |]. cbn in Heq. now rewrite <- Heq.
      * exists slashes. split; [exact Hall |].
        cbn. cbn in Heq. now rewrite <- Heq.
    + exists slashes. split; [exact Hall |].
      cbn. cbn in Heq. now rewrite <- Heq.
Qed.

Lemma rstrip_slash_last s : last_char (OllamaService.rstrip_slash s) <> Some "/"%char.
Proof.
  induction s as [| c r IH]; cbn [OllamaService.rstrip_slash].
  - discriminate.
  - destruct (OllamaService.rstrip_slash r) as [| c' r'] eqn:Hr.
    + destruct (Ascii.eqb c "/") eqn:Hc; cbn; [discriminate |].
      intros [= ->]. now rewrite Ascii.eqb_refl in Hc.
    + exact IH.
Qed.

(** X6. The URL that the requests go to is the configured base URL
    without its trailing slashes, followed by "/api/generate": the base
    that is used never ends in a slash, and differs from the configured
    one by slashes at the end only. *)
Theorem base_url_has_no_trailing_slash env prompt temperature system_prompt :
  url (OllamaService.make_payload env prompt temperature system_prompt)
  = OllamaService.base_url env +:+ "/api/generate"
  /\ last_char (OllamaService.base_url env) <> Some "/"%char
  /\ exists slashes,
       all_slashes slashes = true
       /\ ollama_base_url (config env) = OllamaService.base_url env +:+ slashes.
Proof.
  split; [reflexivity |]. split.
  - apply rstrip_slash_last.
  - apply rstrip_slash_splits.
Qed.

(** ** The batch of chunk requests *)

(** In an open session every task of a batch sends its request, in the
    order of the prompts. *)
Lemma spawn_all_open env temperature system_prompt prompts w :
  session w = Some SessionOpen ->
  snd (OllamaService.spawn_all
         (map (fun prompt =>
                 OllamaService.generate_async env prompt temperature system_prompt)
              prompts) w)
  = sent_all (map (fun prompt =>
                     OllamaService.make_payload env prompt temperature system_prompt)
                  prompts) w.
Proof.
  revert w. induction prompts as [| p rest IH]; intros w Hopen; cbn [map].
  - cbn. now rewrite sent_all_nil.
  - cbn [OllamaService.spawn_all].
    pose proof (generate_async_world env temperature system_prompt p w) as Hw.
    rewrite Hopen in Hw.
    destruct (OllamaService.generate_async env p temperature system_prompt w)
      as [o w1]. cbn in Hw. subst w1.
    specialize (IH (sent (OllamaService.make_payload env p temperature system_prompt) w)
                  Hopen).
    destruct (OllamaService.spawn_all _ _) as [os w2]. cbn in *.
    rewrite IH. apply sent_all_cons.
Qed.

(** The world that a batch leaves: one request for each prompt, the
    clock as it was, the session closed. *)
Lemma process_chunks_world env prompts w :
  snd (_process_chunks_async env prompts w)
  = MkWorld (posted w ++ map (chunk_request env) prompts) (clock_reads w)
      (Some SessionClosed).
Proof.
  unfold _process_chunks_async, OllamaService.async_with.
  unfold bind at 1. unfold OllamaService.aenter at 1.
  rewrite finally_aexit. cbn [snd].
  set (w0 := set_session (Some SessionOpen) w).
  assert (Hbody : snd ((responses <- OllamaService.generate_multiple_async env
                                        prompts (temperature (config env)) None ;;
                        lift (strip_contents responses)) w0)
                  = sent_all (map (chunk_request env) prompts) w0).
  { unfold bind, lift, OllamaService.generate_multiple_async.
    cbn [session w0 set_session]. unfold OllamaService.gather.
    pose proof (spawn_all_open env (temperature (config env)) None prompts w0
                  eq_refl) as Hw.
    destruct (OllamaService.spawn_all _ w0) as [outs w1]. cbn [snd] in Hw.
    subst w1. destruct outs as [| o l].
    - reflexivity.
    - destruct (OllamaService.run_callbacks _ (o :: l)); reflexivity. }
  rewrite Hbody. reflexivity.
Qed.

(** The summaries of a batch in terms of the outcomes of its requests. *)
Lemma process_chunks_outcomes env prompts w :
  fst (_process_chunks_async env prompts w)
  = match request_outcomes env prompts (temperature (config env)) None
            (set_session (Some SessionOpen) w) with
    | [] => Ok []
    | o :: l =>
        match OllamaService.run_callbacks
                (completion_order env (calls w)) (o :: l) with
        | Ok responses => strip_contents responses
        | Raise e => Raise e
        end
    end.
Proof.
  rewrite process_chunks_result.
  rewrite generate_multiple_async_result by discriminate.
  destruct (request_outcomes _ _ _ _ _); reflexivity.
Qed.

(** Stripping the contents succeeds exactly when every content is a
    string, and gives the stripped strings in the same order. *)
Lemma strip_contents_ok responses sums :
  strip_contents responses = Ok sums
  <-> Forall2 (fun response summary =>
                 exists body,
                   OllamaResponse.content response = JStr body
                   /\ summary = Py.strip body) responses sums.
Proof.
  revert sums. induction responses as [| r rest IH]; intros sums; cbn.
  - split.
    + intros [= <-]. constructor.
    + intros H. inversion H. reflexivity.
  - split.
    + destruct (OllamaResponse.content r) as [| | | | body | |] eqn:Hc;
        cbn; try discriminate.
      destruct (strip_contents rest) as [l | e]; [| discriminate].
      intros [= <-]. constructor; [eauto | now apply IH].
    + intros H. inversion H as [| ? s ? l (body & Hbody & ->) Hrest]; subst.
      rewrite Hbody. cbn. apply IH in Hrest. now rewrite Hrest.
Qed.

(** X7. However it ends, the batch sends exactly one request for each
    prompt, in the order of the prompts and with the configured
    temperature; it does not read the clock; and it leaves the session
    closed, also when a request or the decoding of a reply fails. *)
Theorem batch_sends_one_request_per_prompt env prompts w :
  let w' := snd (_process_chunks_async env prompts w) in
  posted w' = posted w ++ map (chunk_request env) prompts
  /\ calls w' = (calls w + length prompts)%nat
  /\ clock_reads w' = clock_reads w
  /\ session w' = Some SessionClosed.
Proof.
  intros w'. unfold w'. rewrite process_chunks_world. cbn.
  repeat split. unfold calls. cbn. now rewrite length_app, length_map.
Qed.

(** X8. The batch returns summaries exactly when every one of its
    requests succeeded with a string as content, and the summaries are
    then the stripped contents, in the order of the prompts, whatever the
    order of completion. *)
Theorem batch_summaries_follow_prompts env prompts w sums :
  fst (_process_chunks_async env prompts w) = Ok sums
  <-> exists responses,
        request_outcomes env prompts (temperature (config env)) None
          (set_session (Some SessionOpen) w) = map Ok responses
        /\ Forall2 (fun response summary =>
                      exists body,
                        OllamaResponse.content response = JStr body
                        /\ summary = Py.strip body) responses sums.
Proof.
  rewrite process_chunks_outcomes.
  destruct (request_outcomes _ _ _ _ _) as [| o l] eqn:Houts.
  - split.
    + intros [= <-]. exists []. split; [reflexivity | constructor].
    + intros (responses & Hmap & Hall).
      destruct responses; [| discriminate]. inversion Hall. reflexivity.
  - split.
    + destruct (OllamaService.run_callbacks _ (o :: l)) as [responses | e] eqn:Hr;
        [| discriminate].
      intros Hs. apply run_callbacks_ok in Hr. apply strip_contents_ok in Hs.
      eauto.
    + intros (responses & Hmap & Hall).
      apply (run_callbacks_ok (completion_order env (calls w))) in Hmap.
      rewrite Hmap. now apply strip_contents_ok.
Qed.

(** The prompts of a batch, position by position. *)
Lemma chunk_prompts_from_lookup start total chunks i chunk :
  chunks !! i = Some chunk ->
  Prompt.chunk_prompts_from start total chunks !! i
  = Some (Prompt._create_chunk_summary_prompt (TextChunk.content chunk)
            (start + Z.of_nat i + 1) total).
Proof.
  revert start i. induction chunks as [| c rest IH]; intros start i Hi.
  - discriminate.
  - destruct i as [| i]; cbn [Prompt.chunk_prompts_from].
    + injection Hi as ->. cbn. f_equal. f_equal. lia.
    + cbn in Hi. specialize (IH (start + 1) i Hi).
      etransitivity; [exact IH |]. f_equal. f_equal. lia.
Qed.

(** X9. The chunk at position [i], counted from 0, is announced to the
    backend as chunk [i + 1] of the total number of chunks, and its
    prompt stands at position [i] of the batch: the prompts are as many
    as the chunks and keep their order. *)
Theorem chunk_prompts_are_numbered_from_one chunks :
  length (Prompt.chunk_prompts chunks) = length chunks
  /\ forall i chunk,
       chunks !! i = Some chunk ->
       Prompt.chunk_prompts chunks !! i
       = Some (Prompt._create_chunk_summary_prompt (TextChunk.content chunk)
                 (Z.of_nat i + 1) (Z.of_nat (length chunks))).
Proof.
  split; [apply chunk_prompts_length |].
  intros i chunk Hi. unfold Prompt.chunk_prompts.
  rewrite (chunk_prompts_from_lookup 0 _ chunks i chunk Hi).
  reflexivity.
Qed.

(** Of the requests that fail, the one that completes first decides. *)
Lemma run_callbacks_first_failure {A} (outs : list (Outcome A)) before i after e :
  Forall (succeeded outs) before ->
  outs !! i = Some (Raise e) ->
  OllamaService.run_callbacks (before ++ i :: after) outs = Raise e.
Proof.
  intros Hbefore Hi. induction Hbefore as [| j rest Hj _ IH]; cbn.
  - now rewrite Hi.
  - destruct (outs !! j) as [[a | e'] |] eqn:Hoj; try exact IH.
    exfalso. now apply (Hj e').
Qed.

(** X10. When requests of a batch fail, [generate_multiple_async] raises
    the exception of the failed request that completes first: the
    requests that completed before it all succeeded, and their responses
    are dropped with the rest. *)
Theorem first_failure_to_complete_is_raised
    env prompts temperature system_prompt w before i after e :
  session w <> None ->
  completion_order env (calls w) = before ++ i :: after ->
  let outcomes := request_outcomes env prompts temperature system_prompt w in
  Forall (succeeded outcomes) before ->
  outcomes !! i = Some (Raise e) ->
  fst (OllamaService.generate_multiple_async env prompts temperature
         system_prompt w) = Raise e.
Proof.
  intros Hs Horder outcomes Hbefore Hi.
  rewrite generate_multiple_async_result by exact Hs.
  fold outcomes. destruct outcomes as [| o l] eqn:Houts; [discriminate |].
  rewrite Horder. now apply run_callbacks_first_failure.
Qed.

Lemma first_failure_to_complete_is_raised_witness :
  fst (OllamaService.generate_multiple_async Sample.env_three_fail
         ["one"; "two"; "three"] (3 # 10) None
         (set_session (Some SessionOpen) fresh))
  = Raise (MkExc PlainException
             "Error communicating with Ollama: 500, message='Internal Server Error'").
Proof.
  apply (first_failure_to_complete_is_raised Sample.env_three_fail
           ["one"; "two"; "three"] (3 # 10) None
           (set_session (Some SessionOpen) fresh) [2%nat] 1%nat [0%nat]).
  - discriminate.
  - reflexivity.
  - repeat constructor. intros e. vm_compute. discriminate.
  - vm_compute. reflexivity.
Defined.

(** ** The map step and the reduce step *)

(** The reduce step sends its one request and leaves the rest alone. *)
Lemma reduction_world env summaries w :
  snd (reduction env summaries w)
  = sent (final_request env (Py.join (Py.nl +:+ Py.nl) summaries)) w.
Proof.
  unfold reduction, bind, lift.
  pose proof (generate_sync_world env
    (Prompt._create_final_summary_prompt (Py.join (Py.nl +:+ Py.nl) summaries))
    (temperature (config env)) None w) as Hw.
  destruct (OllamaService.generate_sync env _ _ _ w) as [[response | e] w1];
    cbn in Hw; subst w1; reflexivity.
Qed.

(** What the reduce step returns is the stripped text of a reply. *)
Lemma reduction_ok env summaries w fs w' :
  reduction env summaries w = (Ok fs, w') ->
  exists body, fs = Py.strip body.
Proof.
  unfold reduction, bind, lift.
  destruct (OllamaService.generate_sync env _ _ _ w) as [[response | e] w1];
    [| discriminate].
  destruct (OllamaResponse.content response); cbn; try discriminate.
  intros [= <- _]. eauto.
Qed.

(** The world that the map step leaves. *)
Lemma chunk_summaries_world env chunks w :
  snd (chunk_summaries_of env chunks w)
  = match chunks with
    | [_] => w
    | _ => MkWorld (posted w ++ map (chunk_request env) (Prompt.chunk_prompts chunks))
             (clock_reads w) (Some SessionClosed)
    end.
Proof.
  unfold chunk_summaries_of.
  destruct chunks as [| c [| c' cs]]; try apply process_chunks_world.
  reflexivity.
Qed.

(** ** Several chunks *)

(** X11. For a text of two or more chunks both summarizers send the chunk
    requests first, one for each chunk in chunk order, and then, only if
    every chunk summary arrived, one more request: the final-summary
    prompt over the chunk summaries joined by a blank line in chunk
    order.  A batch that fails is followed by no request at all.  The
    session that the batch opened is closed when [summarize_text]
    returns. *)
Theorem several_chunks_requests env text w chunks :
  chunk_by_sentences env text = Ok chunks ->
  (2 <= length chunks)%nat ->
  let summaries :=
    fst (_process_chunks_async env (Prompt.chunk_prompts chunks) (tick w)) in
  let expected :=
    posted w ++ map (chunk_request env) (Prompt.chunk_prompts chunks)
    ++ match summaries with
       | Ok sums => [final_request env (Py.join (Py.nl +:+ Py.nl) sums)]
       | Raise _ => []
       end in
  (forall sums, summaries = Ok sums -> length sums = length chunks)
  /\ (posted (snd (Simple.summarize_text env text w)) = expected
      /\ session (snd (Simple.summarize_text env text w)) = Some SessionClosed)
  /\ (Py.strip text <> "" ->
      posted (snd (Workflow.summarize_text env text w)) = expected
      /\ session (snd (Workflow.summarize_text env text w)) = Some SessionClosed).
Proof.
  intros Hchunks Hlen summaries expected.
  destruct chunks as [| c [| c' cs]]; [cbn in Hlen; lia | cbn in Hlen; lia |].
  clear Hlen.
  pose proof (process_chunks_world env (Prompt.chunk_prompts (c :: c' :: cs))
                (tick w)) as Hworld.
  assert (Hsteps : forall (k : Outcome string -> World -> Result.t)
                          (after : World -> World),
             (forall w0, posted (after w0) = posted w0) ->
             (forall w0, session (after w0) = session w0) ->
             let run :=
               match chunk_summaries_of env (c :: c' :: cs) (tick w) with
               | (Raise e, w2) => (Ok (k (Raise e) w2), after w2)
               | (Ok sums, w2) =>
                   match reduction env sums w2 with
                   | (Raise e, w3) => (Ok (k (Raise e) w3), after w3)
                   | (Ok fs, w3) => (Ok (k (Ok fs) w3), tick w3)
                   end
               end in
             posted (snd run) = expected
             /\ session (snd run) = Some SessionClosed).
  { intros k after Hposted Hsession run. unfold run, expected, summaries.
    unfold chunk_summaries_of.
    destruct (_process_chunks_async env _ (tick w)) as [[sums | e] w2];
      cbn [fst snd] in *; subst w2.
    - pose proof (reduction_world env sums
        (MkWorld (posted (tick w) ++ map (chunk_request env)
                    (Prompt.chunk_prompts (c :: c' :: cs)))
           (clock_reads (tick w)) (Some SessionClosed))) as Hred.
      destruct (reduction env sums _) as [[fs | e] w3]; cbn [snd] in *; subst w3.
      + cbn. split; [now rewrite <- app_assoc | reflexivity].
      + rewrite Hposted, Hsession. cbn.
        split; [now rewrite <- app_assoc | reflexivity].
    - rewrite Hposted, Hsession. cbn.
      split; [now rewrite app_nil_r | reflexivity]. }
  split; [| split].
  - intros sums Hs. unfold summaries in Hs.
    destruct (_process_chunks_async env _ (tick w)) as [o w2] eqn:Hbatch.
    cbn in Hs. subst o. apply process_chunks_length in Hbatch.
    now rewrite chunk_prompts_length in Hbatch.
  - rewrite Simple_steps, Hchunks.
    pose proof (Hsteps
      (fun o w0 =>
         match o with
         | Ok fs => success text fs (Z.of_nat (length (c :: c' :: cs)))
                      (now env w0 - now env w)
         | Raise e => failure text (now env w0 - now env w) (str_exc e)
         end) tick (fun _ => eq_refl) (fun _ => eq_refl)) as H.
    cbn zeta in H.
    destruct (chunk_summaries_of env (c :: c' :: cs) (tick w)) as [[sums | e] w2];
      [| exact H].
    destruct (reduction env sums w2) as [[fs | e] w3]; exact H.
  - intros Hblank. apply truthy_true in Hblank.
    rewrite Workflow_steps, Hblank, Hchunks.
    destruct (chunk_summaries_of env (c :: c' :: cs) (tick w))
      as [[sums | e] w2] eqn:Hmap.
    + pose proof (Hsteps
        (fun o w0 =>
           match o with
           | Ok fs => success text fs (Z.of_nat (length (c :: c' :: cs)))
                        (now env w0 - now env w)
           | Raise e =>
               failure text 0 ("Error creating final summary: " +:+ str_exc e)
           end) (fun w0 => w0) (fun _ => eq_refl) (fun _ => eq_refl)) as H.
      cbn zeta in H.
      destruct (reduction env sums w2) as [[fs | e] w3]; exact H.
    + pose proof (Hsteps
        (fun o w0 =>
           failure text 0 ("Error summarizing chunks: " +:+
                           match o with Ok _ => "" | Raise e => str_exc e end))
        (fun w0 => w0) (fun _ => eq_refl) (fun _ => eq_refl)) as H.
      cbn zeta in H. exact H.
Qed.

Lemma several_chunks_requests_witness :
  map prompt (posted (snd (Workflow.summarize_text Sample.env_three
                             "One. Two. Three." fresh)))
  = Prompt.chunk_prompts
      [TextChunk.Make "First part." 0 0 11;
       TextChunk.Make "Second part." 1 11 23;
       TextChunk.Make "Third part." 2 23 34]
    ++ [Prompt._create_final_summary_prompt
          (Py.join (Py.nl +:+ Py.nl) ["summary 0"; "summary 1"; "summary 2"])].
Proof.
  pose proof (several_chunks_requests Sample.env_three "One. Two. Three." fresh
                [TextChunk.Make "First part." 0 0 11;
                 TextChunk.Make "Second part." 1 11 23;
                 TextChunk.Make "Third part." 2 23 34] eq_refl ltac:(cbn; lia))
    as (_ & _ & H).
  destruct H as [H _]; [discriminate |].
  rewrite H. vm_compute. reflexivity.
Defined.

(** ** The two summarizers side by side *)

(** X12. On a text that is not blank and has at least one chunk the two
    summarizers send the same requests and agree on the outcome.  When
    one succeeds so does the other, with the same summary, lengths,
    elapsed time and compression ratio, and they end in the same world;
    only [chunks_processed] can differ, where the simple summarizer
    reports the number of chunks.  When one fails so does the other, and
    the error of the workflow is the error of the simple summarizer
    behind the name of the stage that failed. *)
Theorem summarizers_agree env text w chunks :
  Py.strip text <> "" ->
  chunk_by_sentences env text = Ok chunks ->
  chunks <> [] ->
  exists rw ww rs ws,
    Workflow.summarize_text env text w = (Ok rw, ww)
    /\ Simple.summarize_text env text w = (Ok rs, ws)
    /\ posted ww = posted ws
    /\ session ww = session ws
    /\ ((Result.error rw = None
         /\ ww = ws
         /\ rs = Result.Make (Result.summary rw) (Result.original_length rw)
                   (Result.summary_length rw) (Z.of_nat (length chunks))
                   (Result.processing_time rw) (Result.compression_ratio rw)
                   None)
        \/ (exists cause,
              Result.error rs = Some cause
              /\ Result.summary rs = "" /\ Result.summary rw = ""
              /\ (Result.error rw = Some ("Error summarizing chunks: " +:+ cause)
                  \/ Result.error rw
                     = Some ("Error creating final summary: " +:+ cause)))).
Proof.
  intros Hblank Hchunks Hne. apply truthy_true in Hblank.
  rewrite Workflow_steps, Simple_steps, Hblank, Hchunks.
  destruct chunks as [| c [| c' cs]]; [congruence | |].
  all: destruct (chunk_summaries_of env _ (tick w)) as [[sums | e] w2];
    [destruct (reduction env sums w2) as [[fs | e] w3] |].
  all: do 4 eexists; (split; [reflexivity |]); (split; [reflexivity |]);
    (split; [reflexivity |]); (split; [reflexivity |]).
  all: try (left; split; [reflexivity |]; split; reflexivity).
  all: right; exists (str_exc e); repeat split;
    (left; reflexivity) || (right; reflexivity).
Qed.

Lemma summarizers_agree_witness :
  exists rw ww rs ws,
    Workflow.summarize_text Sample.env_three "One. Two. Three." fresh = (Ok rw, ww)
    /\ Simple.summarize_text Sample.env_three "One. Two. Three." fresh = (Ok rs, ws)
    /\ posted ww = posted ws.
Proof.
  destruct (summarizers_agree Sample.env_three "One. Two. Three." fresh
              [TextChunk.Make "First part." 0 0 11;
               TextChunk.Make "Second part." 1 11 23;
               TextChunk.Make "Third part." 2 23 34]
              ltac:(discriminate) eq_refl ltac:(discriminate))
    as (rw & ww & rs & ws & H1 & H2 & H3 & _).
  exists rw, ww, rs, ws. auto.
Defined.

(** ** Before the first request *)

(** X13. When the chunker raises, no request is sent.  The workflow
    reports "Error chunking text: " followed by the text of the
    exception, with a processing time of 0; the simple summarizer
    reports the bare text of the exception, which can be empty, with the
    elapsed time. *)
Theorem chunker_failure_is_reported env text w e :
  chunk_by_sentences env text = Raise e ->
  Simple.summarize_text env text w
  = (Ok (failure text (now env (tick w) - now env w) (str_exc e)),
     tick (tick w))
  /\ (Py.strip text <> "" ->
      Workflow.summarize_text env text w
      = (Ok (failure text 0 ("Error chunking text: " +:+ str_exc e)), tick w)).
Proof.
  intros Hfail. split.
  - rewrite Simple_steps, Hfail. reflexivity.
  - intros Hblank. apply truthy_true in Hblank.
    rewrite Workflow_steps, Hblank, Hfail. reflexivity.
Qed.

Lemma chunker_failure_is_reported_witness :
  Workflow.summarize_text Sample.env_chunk_fail "Hello." fresh
  = (Ok (failure "Hello." 0
           "Error chunking text: overlap must be smaller than chunk size"),
     tick fresh).
Proof.
  apply (proj2 (chunker_failure_is_reported Sample.env_chunk_fail "Hello." fresh
                  (MkExc PlainException "overlap must be smaller than chunk size")
                  eq_refl)).
  discriminate.
Defined.

(** X14. When the chunker returns no chunk for a text that is not blank,
    the workflow sends no request and returns a result without error:
    an empty summary, [summary_length], [chunks_processed],
    [processing_time] and [compression_ratio] all 0.  The simple
    summarizer reports an error for the same text, so here the two
    disagree on whether the run failed. *)
Theorem no_chunks_is_a_silent_success env text w :
  Py.strip text <> "" ->
  chunk_by_sentences env text = Ok [] ->
  Workflow.summarize_text env text w
  = (Ok (Result.Make "" (Py.len text) 0 0 0 0 None), tick w)
  /\ exists rs ws,
       Simple.summarize_text env text w = (Ok rs, ws)
       /\ Result.error rs = Some "No chunks created from input text"
       /\ posted ws = posted w.
Proof.
  intros Hblank Hnone. apply truthy_true in Hblank. split.
  - rewrite Workflow_steps, Hblank, Hnone. reflexivity.
  - rewrite Simple_steps, Hnone. eexists _, _.
    split; [reflexivity |]. split; reflexivity.
Qed.

Lemma no_chunks_is_a_silent_success_witness :
  Workflow.summarize_text
    (MkEnv Sample.cfg (fun _ => Ok []) (backend Sample.env_ok)
       (fun _ => []) Sample.clock) "Hello." fresh
  = (Ok (Result.Make "" 6 0 0 0 0 None), tick fresh).
Proof.
  apply (proj1 (no_chunks_is_a_silent_success
                  (MkEnv Sample.cfg (fun _ => Ok []) (backend Sample.env_ok)
                     (fun _ => []) Sample.clock) "Hello." fresh
                  ltac:(discriminate) eq_refl)).
Defined.

(** ** What every result has *)

Lemma summarize_text_returns env text w :
  (exists r w', Workflow.summarize_text env text w = (Ok r, w'))
  /\ (exists r w', Simple.summarize_text env text w = (Ok r, w')).
Proof.
  split.
  - destruct (Workflow_run env text w) as (r & w' & H & _). eauto.
  - destruct (Simple_run env text w) as (r & w' & H & _). eauto.
Qed.

(** X15. Every result of [summarize_text], of either summarizer, reports
    the length of the input text as [original_length] and a
    [chunks_processed] that is not negative; and a result with an error
    has [summary_length], [chunks_processed] and [compression_ratio] all
    0. *)
Theorem failed_results_are_zeroed env text w :
  (exists r w',
      Workflow.summarize_text env text w = (Ok r, w')
      /\ Result.original_length r = Py.len text
      /\ 0 <= Result.chunks_processed r
      /\ (Result.error r <> None ->
          Result.summary_length r = 0 /\ Result.chunks_processed r = 0
          /\ Result.compression_ratio r = 0%Q))
  /\ (exists r w',
        Simple.summarize_text env text w = (Ok r, w')
        /\ Result.original_length r = Py.len text
        /\ 0 <= Result.chunks_processed r
        /\ (Result.error r <> None ->
            Result.summary_length r = 0 /\ Result.chunks_processed r = 0
            /\ Result.compression_ratio r = 0%Q)).
Proof.
  split.
  - rewrite Workflow_steps.
    destruct (Py.truthy (Py.strip text)).
    + destruct (chunk_by_sentences env text) as [[| c rest] | e].
      * eexists _, _. split; [reflexivity |]. cbn. repeat split; congruence || lia.
      * destruct (chunk_summaries_of env (c :: rest) (tick w)) as [[sums | e] w2].
        -- destruct (reduction env sums w2) as [[fs | e] w3].
           ++ eexists _, _. split; [reflexivity |]. cbn.
              split; [reflexivity |]. split; [destruct rest; lia | congruence].
           ++ eexists _, _. split; [reflexivity |]. cbn. repeat split; lia.
        -- eexists _, _. split; [reflexivity |]. cbn. repeat split; lia.
      * eexists _, _. split; [reflexivity |]. cbn. repeat split; lia.
    + eexists _, _. split; [reflexivity |]. cbn. repeat split; lia.
  - rewrite Simple_steps.
    destruct (chunk_by_sentences env text) as [[| c rest] | e].
    + eexists _, _. split; [reflexivity |]. cbn. repeat split; lia.
    + destruct (chunk_summaries_of env (c :: rest) (tick w)) as [[sums | e] w2].
      * destruct (reduction env sums w2) as [[fs | e] w3].
        -- eexists _, _. split; [reflexivity |]. cbn.
           split; [reflexivity |]. split; [lia | congruence].
        -- eexists _, _. split; [reflexivity |]. cbn. repeat split; lia.
      * eexists _, _. split; [reflexivity |]. cbn. repeat split; lia.
    + eexists _, _. split; [reflexivity |]. cbn. repeat split; lia.
Qed.

(** *** The summary is trimmed *)

Lemma rstrip_cons c r :
  Py.rstrip (String c r)
  = match Py.rstrip r with
    | EmptyString => if Py.isspace c then EmptyString else String c EmptyString
    | String c' r' => String c (String c' r')
    end.
Proof. reflexivity. Qed.

Lemma rstrip_idempotent s : Py.rstrip (Py.rstrip s) = Py.rstrip s.
Proof.
  induction s as [| c r IH]; [reflexivity |].
  rewrite (rstrip_cons c r).
  destruct (Py.rstrip r) as [| c' r'] eqn:Hr.
  - destruct (Py.isspace c) eqn:Hc; [reflexivity |].
    rewrite rstrip_cons. cbn [Py.rstrip]. now rewrite Hc.
  - rewrite rstrip_cons, IH. reflexivity.
Qed.

Lemma lstrip_head s :
  match Py.lstrip s with
  | String c _ => Py.isspace c = false
  | EmptyString => True
  end.
Proof.
  induction s as [| c r IH]; cbn [Py.lstrip]; [exact I |].
  destruct (Py.isspace c) eqn:Hc; [exact IH | exact Hc].
Qed.

(** Stripping the end of a string that starts with a character that is
    not whitespace keeps the start, so nothing is left to strip there. *)
Lemma lstrip_rstrip s :
  match s with
  | String c _ => Py.isspace c = false
  | EmptyString => True
  end ->
  Py.lstrip (Py.rstrip s) = Py.rstrip s.
Proof.
  destruct s as [| c r]; [reflexivity |]. intros Hc.
  rewrite rstrip_cons. destruct (Py.rstrip r); rewrite ?Hc; cbn [Py.lstrip];
    now rewrite Hc.
Qed.

Lemma strip_idempotent s : Py.strip (Py.strip s) = Py.strip s.
Proof.
  unfold Py.strip.
  rewrite (lstrip_rstrip (Py.lstrip s)) by apply lstrip_head.
  apply rstrip_idempotent.
Qed.

(** X16. The summary of every result is already stripped of the
    whitespace at its two ends: [summary.strip()] is [summary]. *)
Theorem summary_is_trimmed env text w :
  (exists r w',
      Workflow.summarize_text env text w = (Ok r, w')
      /\ Py.strip (Result.summary r) = Result.summary r)
  /\ (exists r w',
        Simple.summarize_text env text w = (Ok r, w')
        /\ Py.strip (Result.summary r) = Result.summary r).
Proof.
  split.
  - rewrite Workflow_steps.
    destruct (Py.truthy (Py.strip text)); [| eexists _, _; split; reflexivity].
    destruct (chunk_by_sentences env text) as [[| c rest] | e];
      try (eexists _, _; split; reflexivity).
    destruct (chunk_summaries_of env (c :: rest) (tick w)) as [[sums | e] w2];
      [| eexists _, _; split; reflexivity].
    destruct (reduction env sums w2) as [[fs | e] w3] eqn:Hred;
      [| eexists _, _; split; reflexivity].
    apply reduction_ok in Hred. destruct Hred as [body ->].
    eexists _, _. split; [reflexivity |]. apply strip_idempotent.
  - rewrite Simple_steps.
    destruct (chunk_by_sentences env text) as [[| c rest] | e];
      try (eexists _, _; split; reflexivity).
    destruct (chunk_summaries_of env (c :: rest) (tick w)) as [[sums | e] w2];
      [| eexists _, _; split; reflexivity].
    destruct (reduction env sums w2) as [[fs | e] w3] eqn:Hred;
      [| eexists _, _; split; reflexivity].
    apply reduction_ok in Hred. destruct Hred as [body ->].
    eexists _, _. split; [reflexivity |]. apply strip_idempotent.
Qed.

(** ** The two kinds of result *)

(** A reduce step that returns has had its request answered, with a
    string for content; what it returns is that string stripped, and the
    request is the last one sent. *)
Lemma reduction_reply env summaries w fs w' :
  reduction env summaries w = (Ok fs, w') ->
  exists response body,
    OllamaService.generate_sync env
      (Prompt._create_final_summary_prompt
         (Py.join (Py.nl +:+ Py.nl) summaries))
      (temperature (config env)) None w = (Ok response, w')
    /\ OllamaResponse.content response = JStr body
    /\ fs = Py.strip body
    /\ posted w'
       = posted w ++ [final_request env (Py.join (Py.nl +:+ Py.nl) summaries)].
Proof.
  intros Hred.
  pose proof (reduction_world env summaries w) as Hw.
  rewrite Hred in Hw. cbn [snd] in Hw.
  revert Hred. unfold reduction, bind, lift.
  destruct (OllamaService.generate_sync env _ _ _ w) as [[response | e] w1];
    [| discriminate].
  destruct (OllamaResponse.content response) as [| | | | body | |] eqn:Hcontent;
    cbn; try discriminate.
  intros [= <- <-]. exists response, body.
  split; [reflexivity |]. split; [exact Hcontent |]. split; [reflexivity |].
  rewrite Hw. reflexivity.
Qed.

Lemma not_truthy s : Py.truthy s = false -> s = "".
Proof. destruct s; [reflexivity | discriminate]. Qed.

(** C1, as the code has it. [summarize_text] always returns a result, and
    the result is of one of two kinds.

    Either [error] is null.  Then the chunker returned chunks, the map
    step gave their summaries, the request for the final summary was
    answered, and [summary] is the stripped text of that answer, the
    answer to the last request of the run; it may be empty whatever the
    length of the text, and [summary_length] is its length.  The workflow
    has one more result without error: for text that is not blank and a
    chunker that returns no chunk, the empty summary, and no request.

    Or [error] is set: the text was blank (workflow), the chunker raised,
    or the map step or the reduce step did.  Then [summary] is empty,
    with one exception: when the chunker yields no chunk the simple
    summarizer reports the error "No chunks created from input text"
    together with the marker summary.  The errors of the workflow are
    never the empty string. *)
Theorem error_or_summary env text w :
  (exists r w',
      Workflow.summarize_text env text w = (Ok r, w')
      /\ ((Result.error r = None
           /\ Result.summary_length r = Py.len (Result.summary r)
           /\ Py.strip text <> ""
           /\ ((chunk_by_sentences env text = Ok []
                /\ Result.summary r = ""
                /\ posted w' = posted w)
               \/ (exists chunks body w3,
                     chunk_by_sentences env text = Ok chunks
                     /\ chunks <> []
                     /\ final_reply env chunks w body w3
                     /\ Result.summary r = Py.strip body
                     /\ posted w' = posted w3)))
          \/ (exists msg,
                Result.error r = Some msg /\ msg <> ""
                /\ Result.summary r = ""
                /\ (Py.strip text = ""
                    \/ (exists e, chunk_by_sentences env text = Raise e)
                    \/ (exists chunks,
                          chunk_by_sentences env text = Ok chunks
                          /\ chunks <> []
                          /\ broke_off env chunks w)))))
  /\ (exists r w',
        Simple.summarize_text env text w = (Ok r, w')
        /\ ((Result.error r = None
             /\ Result.summary_length r = Py.len (Result.summary r)
             /\ (exists chunks body w3,
                   chunk_by_sentences env text = Ok chunks
                   /\ chunks <> []
                   /\ final_reply env chunks w body w3
                   /\ Result.summary r = Py.strip body
                   /\ posted w' = posted w3))
            \/ (exists msg,
                  Result.error r = Some msg
                  /\ ((Result.summary r = ""
                       /\ ((exists e, chunk_by_sentences env text = Raise e)
                           \/ (exists chunks,
                                 chunk_by_sentences env text = Ok chunks
                                 /\ chunks <> []
                                 /\ broke_off env chunks w)))
                      \/ (chunk_by_sentences env text = Ok []
                          /\ msg = "No chunks created from input text"
                          /\ Result.summary r = Simple.no_content))))).
Proof.
  split.
  - rewrite Workflow_steps.
    destruct (Py.truthy (Py.strip text)) eqn:Hblank.
    2:{ apply not_truthy in Hblank.
        eexists _, _. split; [reflexivity |]. right. eexists.
        split; [reflexivity |]. split; [discriminate |].
        split; [reflexivity |]. left. exact Hblank. }
    apply truthy_true in Hblank.
    destruct (chunk_by_sentences env text) as [[| c rest] | e].
    + eexists _, _. split; [reflexivity |]. left.
      split; [reflexivity |]. split; [reflexivity |]. split; [exact Hblank |].
      left. repeat split.
    + destruct (chunk_summaries_of env (c :: rest) (tick w))
        as [[sums | e] w2] eqn:Hmap.
      * destruct (reduction env sums w2) as [[fs | e] w3] eqn:Hred.
        -- apply reduction_reply in Hred.
           destruct Hred as (response & body & Hreply & Hcontent & -> & Hposted).
           eexists _, _. split; [reflexivity |]. left.
           split; [reflexivity |]. split; [reflexivity |].
           split; [exact Hblank |]. right.
           exists (c :: rest), body, w3.
           split; [reflexivity |]. split; [discriminate |].
           split; [| split; reflexivity].
           exists sums, w2, response. auto.
        -- eexists _, _. split; [reflexivity |]. right. eexists.
           split; [reflexivity |]. split; [discriminate |].
           split; [reflexivity |]. right. right.
           exists (c :: rest). split; [reflexivity |]. split; [discriminate |].
           right. exists sums, w2, e, w3. auto.
      * eexists _, _. split; [reflexivity |]. right. eexists.
        split; [reflexivity |]. split; [discriminate |].
        split; [reflexivity |]. right. right.
        exists (c :: rest). split; [reflexivity |]. split; [discriminate |].
        left. exists e, w2. exact Hmap.
    + eexists _, _. split; [reflexivity |]. right. eexists.
      split; [reflexivity |]. split; [discriminate |].
      split; [reflexivity |]. right. left. exists e. reflexivity.
  - rewrite Simple_steps.
    destruct (chunk_by_sentences env text) as [[| c rest] | e].
    + eexists _, _. split; [reflexivity |]. right. eexists.
      split; [reflexivity |]. right. repeat split.
    + destruct (chunk_summaries_of env (c :: rest) (tick w))
        as [[sums | e] w2] eqn:Hmap.
      * destruct (reduction env sums w2) as [[fs | e] w3] eqn:Hred.
        -- apply reduction_reply in Hred.
           destruct Hred as (response & body & Hreply & Hcontent & -> & Hposted).
           eexists _, _. split; [reflexivity |]. left.
           split; [reflexivity |]. split; [reflexivity |].
           exists (c :: rest), body, w3.
           split; [reflexivity |]. split; [discriminate |].
           split; [| split; reflexivity].
           exists sums, w2, response. auto.
        -- eexists _, _. split; [reflexivity |]. right. eexists.
           split; [reflexivity |]. left. split; [reflexivity |]. right.
           exists (c :: rest). split; [reflexivity |]. split; [discriminate |].
           right. exists sums, w2, e, w3. auto.
      * eexists _, _. split; [reflexivity |]. right. eexists.
        split; [reflexivity |]. left. split; [reflexivity |]. right.
        exists (c :: rest). split; [reflexivity |]. split; [discriminate |].
        left. exists e, w2. exact Hmap.
    + eexists _, _. split; [reflexivity |]. right. eexists.
      split; [reflexivity |]. left. split; [reflexivity |].
      left. exists e. reflexivity.
Qed.

(** *** The processing time *)

Lemma chunk_summaries_clock env chunks w :
  clock_reads (snd (chunk_summaries_of env chunks w)) = clock_reads w.
Proof.
  rewrite chunk_summaries_world. destruct chunks as [| c [| c' cs]]; reflexivity.
Qed.

Lemma reduction_clock env summaries w :
  clock_reads (snd (reduction env summaries w)) = clock_reads w.
Proof. rewrite reduction_world. reflexivity. Qed.

(** X17. The simple summarizer reads the clock twice and reports the
    difference between the two readings as the processing time, whatever
    the outcome.  The workflow reports that same difference exactly when
    the run came to a summary, that is when the result has no error and
    the chunker returned a chunk; it has then read the clock twice.  For
    every failed run and for the run without chunks the workflow reports
    0, after one reading of the clock, or none for blank text.  So the
    time is never negative as long as the clock does not run backwards. *)
Theorem processing_time_is_one_interval env text w :
  let interval :=
    (wall_clock env (S (clock_reads w)) - wall_clock env (clock_reads w))%Q in
  (exists r w',
      Simple.summarize_text env text w = (Ok r, w')
      /\ Result.processing_time r = interval
      /\ clock_reads w' = S (S (clock_reads w))
      /\ (monotone_clock env -> (0 <= Result.processing_time r)%Q))
  /\ (exists r w',
        Workflow.summarize_text env text w = (Ok r, w')
        /\ (let summarized :=
              match Result.error r, chunk_by_sentences env text with
              | None, Ok (_ :: _) => true
              | _, _ => false
              end in
            Result.processing_time r = (if summarized then interval else 0%Q)
            /\ clock_reads w'
               = if summarized then S (S (clock_reads w))
                 else if Py.truthy (Py.strip text) then S (clock_reads w)
                 else clock_reads w)
        /\ (clock_reads w' <= S (S (clock_reads w)))%nat
        /\ (monotone_clock env -> (0 <= Result.processing_time r)%Q)).
Proof.
  intros interval.
  assert (Hpos : monotone_clock env -> (0 <= interval)%Q).
  { intros Hmono. unfold interval.
    apply (proj1 (Qle_minus_iff _ _)), Hmono. }
  assert (Hzero : (0 <= 0)%Q) by apply Qle_refl.
  split.
  - rewrite Simple_steps.
    destruct (chunk_by_sentences env text) as [[| c rest] | e];
      try (eexists _, _; split; [reflexivity |]; cbn;
           split; [reflexivity |]; split; [reflexivity | exact Hpos]).
    pose proof (chunk_summaries_clock env (c :: rest) (tick w)) as Hc2.
    destruct (chunk_summaries_of env (c :: rest) (tick w)) as [[sums | e] w2];
      cbn [snd] in Hc2.
    + pose proof (reduction_clock env sums w2) as Hc3.
      destruct (reduction env sums w2) as [[fs | e] w3]; cbn [snd] in Hc3.
      all: eexists _, _; split; [reflexivity |]; cbn; unfold now;
        rewrite Hc3, Hc2; cbn;
        split; [reflexivity |]; split; [reflexivity | exact Hpos].
    + eexists _, _. split; [reflexivity |]. cbn. unfold now. rewrite Hc2. cbn.
      split; [reflexivity |]. split; [reflexivity | exact Hpos].
  - rewrite Workflow_steps.
    destruct (Py.truthy (Py.strip text));
      [| eexists _, _; split; [reflexivity |]; cbn;
         split; [split; reflexivity |]; split; [lia | intros _; exact Hzero]].
    destruct (chunk_by_sentences env text) as [[| c rest] | e];
      try (eexists _, _; split; [reflexivity |]; cbn;
           split; [split; reflexivity |];
           split; [lia | intros _; exact Hzero]).
    pose proof (chunk_summaries_clock env (c :: rest) (tick w)) as Hc2.
    destruct (chunk_summaries_of env (c :: rest) (tick w)) as [[sums | e] w2];
      cbn [snd] in Hc2.
    + pose proof (reduction_clock env sums w2) as Hc3.
      destruct (reduction env sums w2) as [[fs | e] w3]; cbn [snd] in Hc3.
      * eexists _, _. split; [reflexivity |]. cbn. unfold now.
        rewrite Hc3, Hc2. cbn.
        split; [split; reflexivity |]. split; [lia | exact Hpos].
      * eexists _, _. split; [reflexivity |]. cbn. rewrite Hc3, Hc2. cbn.
        split; [split; reflexivity |]. split; [lia | intros _; exact Hzero].
    + eexists _, _. split; [reflexivity |]. cbn. rewrite Hc2. cbn.
      split; [split; reflexivity |]. split; [lia | intros _; exact Hzero].
Qed.

Lemma sample_clock_monotone : monotone_clock Sample.env_ok.
Proof.
  intros k. unfold Sample.env_ok, Sample.clock. cbn.
  unfold Qle. cbn. lia.
Qed.

Lemma processing_time_is_one_interval_witness :
  (exists r w',
      Simple.summarize_text Sample.env_ok "Hello world." fresh = (Ok r, w')
      /\ (0 <= Result.processing_time r)%Q)
  /\ (exists r w',
        Workflow.summarize_text Sample.env_ok "Hello world." fresh = (Ok r, w')
        /\ Result.error r = None
        /\ (Result.processing_time r == 1)%Q
        /\ clock_reads w' = 2%nat).
Proof.
  destruct (processing_time_is_one_interval Sample.env_ok "Hello world." fresh)
    as [(r & w' & Hrun & _ & _ & Hpos) (r' & w'' & Hrun' & [Htime Hreads] & _)].
  split.
  - exists r, w'. split; [exact Hrun |]. apply Hpos, sample_clock_monotone.
  - exists r', w''. split; [exact Hrun' |].
    assert (Herr : Result.error r' = None).
    { vm_compute in Hrun'. injection Hrun' as <- _. reflexivity. }
    rewrite Herr in Htime, Hreads.
    split; [exact Herr |]. split.
    + rewrite Htime. vm_compute. reflexivity.
    + rewrite Hreads. reflexivity.
Defined.

(** ** A reply whose content is not a string *)

(** X18. A final reply whose [response] field is present but is not a
    string, [null] for one, fails the run: stripping it raises, and the
    result carries "'<type>' object has no attribute 'strip'", behind
    "Error creating final summary: " in the workflow.  The request has
    been sent and is not repeated. *)
Theorem non_string_content_fails env text w chunk response w2 :
  chunk_by_sentences env text = Ok [chunk] ->
  OllamaService.generate_sync env
    (Prompt._create_final_summary_prompt (TextChunk.content chunk))
    (temperature (config env)) None (tick w) = (Ok response, w2) ->
  (forall s, OllamaResponse.content response <> JStr s) ->
  let complaint :=
    "'" +:+ type_name (OllamaResponse.content response)
    +:+ "' object has no attribute 'strip'" in
  Simple.summarize_text env text w
  = (Ok (failure text (now env w2 - now env w) complaint), tick w2)
  /\ (Py.strip text <> "" ->
      Workflow.summarize_text env text w
      = (Ok (failure text 0 ("Error creating final summary: " +:+ complaint)),
         w2)).
Proof.
  intros Hone Hgen Hnot complaint.
  assert (Hred : reduction env [TextChunk.content chunk] (tick w)
                 = (Raise (no_attribute (OllamaResponse.content response) "strip"),
                    w2)).
  { unfold reduction, bind, lift. cbn [Py.join]. rewrite Hgen.
    destruct (OllamaResponse.content response) eqn:Hc; try reflexivity.
    exfalso. eapply Hnot. reflexivity. }
  split.
  - rewrite Simple_steps, Hone.
    unfold chunk_summaries_of, ret. rewrite Hred. reflexivity.
  - intros Hblank. apply truthy_true in Hblank.
    rewrite Workflow_steps, Hblank, Hone.
    unfold chunk_summaries_of, ret. rewrite Hred. reflexivity.
Qed.

Lemma non_string_content_fails_witness :
  Workflow.summarize_text Sample.env_null_reply "Hello world." fresh
  = (Ok (failure "Hello world." 0
           "Error creating final summary: 'NoneType' object has no attribute 'strip'"),
     sent (final_request Sample.env_null_reply "Hello world.") (tick fresh)).
Proof.
  refine (proj2 (non_string_content_fails Sample.env_null_reply "Hello world."
                   fresh (TextChunk.Make "Hello world." 0 0 12)
                   (OllamaResponse.Make JNull (JStr "llama3") JNull JNull JNull JNull)
                   (sent (final_request Sample.env_null_reply "Hello world.")
                      (tick fresh)) _ _ _) _).
  - reflexivity.
  - vm_compute. reflexivity.
  - discriminate.
  - discriminate.
Defined.

(** ** The VTT entry points *)

(** X19. [summarize_vtt_file] and [summarize_vtt_content], in both
    classes, never raise.  When the parser raises they return the text of
    its exception as the error, with every count 0 (also
    [original_length]), without sending a request or reading the clock.
    When the parser yields a transcript they return exactly what
    [summarize_text] returns for it; their own handler never takes
    over. *)
Theorem vtt_entry_points env parse argument w :
  let expected (summarize_text : string -> M Result.t) :=
    match parse argument with
    | Ok full_text => summarize_text full_text w
    | Raise e => (Ok (Result.Make "" 0 0 0 0 0 (Some (str_exc e))), w)
    end in
  TranscriptSummarizer.summarize_vtt_file env parse argument w
  = expected (Workflow.summarize_text env)
  /\ TranscriptSummarizer.summarize_vtt_content env parse argument w
     = expected (Workflow.summarize_text env)
  /\ SimpleTranscriptSummarizer.summarize_vtt_file env parse argument w
     = expected (Simple.summarize_text env)
  /\ SimpleTranscriptSummarizer.summarize_vtt_content env parse argument w
     = expected (Simple.summarize_text env)
  /\ exists r w',
       TranscriptSummarizer.summarize_vtt_content env parse argument w
       = (Ok r, w').
Proof.
  intros expected.
  assert (Hw : TranscriptSummarizer.summarize_vtt_content env parse argument w
               = expected (Workflow.summarize_text env)).
  { unfold TranscriptSummarizer.summarize_vtt_content, summarize_vtt, expected,
      try_except, bind, lift.
    destruct (parse argument) as [full_text | e]; [| reflexivity].
    destruct (proj1 (summarize_text_returns env full_text w)) as (r & w' & ->).
    reflexivity. }
  assert (Hs : SimpleTranscriptSummarizer.summarize_vtt_content env parse argument w
               = expected (Simple.summarize_text env)).
  { unfold SimpleTranscriptSummarizer.summarize_vtt_content, summarize_vtt,
      expected, try_except, bind, lift.
    destruct (parse argument) as [full_text | e]; [| reflexivity].
    destruct (proj2 (summarize_text_returns env full_text w)) as (r & w' & ->).
    reflexivity. }
  split; [exact Hw |]. split; [exact Hw |]. split; [exact Hs |].
  split; [exact Hs |].
  rewrite Hw. unfold expected.
  destruct (parse argument) as [full_text | e]; [| eauto].
  apply (proj1 (summarize_text_returns env full_text w)).
Qed.

(** ** The probes *)

Lemma name_startswith_some prefix entry b :
  Probe.name_startswith prefix entry = Some b
  <-> exists name, named entry name /\ String.prefix prefix name = b.
Proof.
  unfold Probe.name_startswith, named. split.
  - destruct entry as [| | | | | | fields]; try discriminate.
    destruct (dict_lookup "name" fields) as [[| | | | name | |] |] eqn:Hn;
      try discriminate.
    intros [= <-]. eauto.
  - intros (name & (fields & -> & Hn) & <-). now rewrite Hn.
Qed.

(** [any] is true exactly when some entry matches and every entry before
    it has a name that does not. *)
Lemma any_startswith_true prefix models :
  Probe.any_startswith prefix models = Some true
  <-> exists before entry after,
        models = before ++ entry :: after
        /\ Forall (fun m => Probe.name_startswith prefix m = Some false) before
        /\ Probe.name_startswith prefix entry = Some true.
Proof.
  induction models as [| m rest IH]; cbn.
  - split; [discriminate |].
    intros (before & entry & after & Heq & _). now destruct before.
  - destruct (Probe.name_startswith prefix m) as [[|] |] eqn:Hm.
    + split; [| reflexivity]. intros _.
      exists [], m, rest. split; [reflexivity |]. split; [constructor | exact Hm].
    + rewrite IH. split.
      * intros (before & entry & after & -> & Hb & He).
        exists (m :: before), entry, after.
        split; [reflexivity |]. split; [now constructor | exact He].
      * intros (before & entry & after & Heq & Hb & He).
        destruct before as [| m' before]; cbn in Heq.
        -- injection Heq as -> ->. congruence.
        -- injection Heq as -> ->. inversion Hb; subst.
           exists before, entry, after. auto.
    + split; [discriminate |].
      intros (before & entry & after & Heq & Hb & He).
      destruct before as [| m' before]; cbn in Heq.
      * injection Heq as -> ->. congruence.
      * injection Heq as -> ->. inversion Hb; subst. congruence.
Qed.

(** Entries that come from iterating a [dict] or a [str] are strings and
    have no name. *)
Lemma any_startswith_strings prefix (strings : list string) :
  Probe.any_startswith prefix (map JStr strings) <> Some true.
Proof. destruct strings; cbn; discriminate. Qed.

Lemma chars_are_strings s : exists strings, Probe.chars s = map JStr strings.
Proof.
  induction s as [| c r (strings & IH)].
  - now exists [].
  - exists (String c EmptyString :: strings). cbn. now rewrite IH.
Qed.

(** X20. [check_model_availability] answers [True] exactly when the tag
    listing is answered with status 200 and a JSON object whose "models"
    entry is a list in which some entry has a name that starts with the
    configured model name, every entry before it having a name that does
    not.  A longer installed name thus counts: the match is on the
    beginning of the name, not on the whole name.  The probe sends one
    GET to "/api/tags". *)
Theorem availability_is_a_prefix_match env http log :
  snd (Probe.check_model_availability env http log)
  = log ++ [Probe.tags_request env]
  /\ (fst (Probe.check_model_availability env http log) = true
      <-> exists msg fields before entry name after,
            http (length log) (Probe.tags_request env)
            = Reply 200 msg (Ok (JDict fields))
            /\ dict_lookup "models" fields
               = Some (JList (before ++ entry :: after))
            /\ Forall (fun m =>
                         exists other,
                           named m other
                           /\ String.prefix (model_name (config env)) other
                              = false) before
            /\ named entry name
            /\ String.prefix (model_name (config env)) name = true).
Proof.
  split; [reflexivity |].
  unfold Probe.check_model_availability, Probe.send, Probe.or_false,
    Probe.forget. cbn [fst].
  split.
  - destruct (http (length log) (Probe.tags_request env))
      as [e | status msg body]; cbn; [discriminate |].
    destruct (status =? 200) eqn:Hst; cbn; [| discriminate].
    apply Z.eqb_eq in Hst. subst status.
    destruct body as [result | e]; cbn; [| discriminate].
    destruct result as [| | | | | | fields]; cbn; try discriminate.
    destruct (dict_lookup "models" fields) as [models |] eqn:Hm; cbn;
      [| discriminate].
    destruct models as [| | | | s | entries | inner]; cbn; try discriminate.
    + destruct (chars_are_strings s) as (strings & ->).
      destruct (Probe.any_startswith _ _) as [[|] |] eqn:Hany; cbn;
        try discriminate.
      now apply any_startswith_strings in Hany.
    + destruct (Probe.any_startswith _ entries) as [[|] |] eqn:Hany; cbn;
        try discriminate.
      intros _. apply any_startswith_true in Hany.
      destruct Hany as (before & entry & after & -> & Hb & He).
      apply name_startswith_some in He. destruct He as (name & Hname & Hp).
      exists msg, fields, before, entry, name, after.
      repeat split; try assumption.
      eapply Forall_impl; [exact Hb |].
      intros m Hm'. now apply name_startswith_some in Hm'.
    + rewrite <- (map_map fst JStr).
      destruct (Probe.any_startswith _ _) as [[|] |] eqn:Hany; cbn;
        try discriminate.
      now apply any_startswith_strings in Hany.
  - intros (msg & fields & before & entry & name & after
            & -> & Hm & Hb & Hname & Hp).
    cbn. rewrite Hm. cbn.
    assert (Hany : Probe.any_startswith (OllamaService.model env)
                     (before ++ entry :: after) = Some true).
    { apply any_startswith_true. exists before, entry, after.
      split; [reflexivity |]. split.
      - eapply Forall_impl; [exact Hb |].
        intros m Hm'. now apply name_startswith_some.
      - apply name_startswith_some. eauto. }
    now rewrite Hany.
Qed.

Lemma availability_is_a_prefix_match_witness :
  fst (Probe.check_model_availability Sample.env_ok
         (Sample.probes_ok Sample.tags_longer_name) []) = true.
Proof.
  apply (proj2 (proj2 (availability_is_a_prefix_match Sample.env_ok
                         (Sample.probes_ok Sample.tags_longer_name) []))).
  exists "", [("models", JList [JDict [("name", JStr "mistral:7b")];
                                JDict [("name", JStr "llama3.1:8b")]])],
    [JDict [("name", JStr "mistral:7b")]],
    (JDict [("name", JStr "llama3.1:8b")]), "llama3.1:8b", [].
  split; [reflexivity |]. split; [reflexivity |]. split.
  - repeat constructor. exists "mistral:7b". split; [| reflexivity].
    eexists. split; reflexivity.
  - split; [| reflexivity]. eexists. split; reflexivity.
Defined.

Lemma any_startswith_malformed prefix before bad after :
  Forall (fun m => Probe.name_startswith prefix m = Some false) before ->
  Probe.name_startswith prefix bad = None ->
  Probe.any_startswith prefix (before ++ bad :: after) = None.
Proof.
  intros Hb Hbad. induction Hb as [| m rest Hm _ IH]; cbn.
  - now rewrite Hbad.
  - now rewrite Hm.
Qed.

(** X21. An entry of the tag listing that is not an object with a string
    under "name" makes [check_model_availability] answer [False] as soon
    as it is reached: the exception it causes is swallowed, and entries
    after it are not looked at, so a model listed behind such an entry is
    reported as not available. *)
Theorem malformed_entry_hides_later_models
    env http log msg fields before bad after :
  http (length log) (Probe.tags_request env)
  = Reply 200 msg (Ok (JDict fields)) ->
  dict_lookup "models" fields = Some (JList (before ++ bad :: after)) ->
  Forall (fun m =>
            exists other,
              named m other
              /\ String.prefix (model_name (config env)) other = false) before ->
  (forall name, ~ named bad name) ->
  fst (Probe.check_model_availability env http log) = false.
Proof.
  intros Hreply Hmodels Hbefore Hbad.
  unfold Probe.check_model_availability, Probe.send, Probe.or_false,
    Probe.forget. cbn [fst]. rewrite Hreply. cbn. rewrite Hmodels. cbn.
  rewrite any_startswith_malformed; [reflexivity | |].
  - eapply Forall_impl; [exact Hbefore |].
    intros m Hm. now apply name_startswith_some.
  - destruct (Probe.name_startswith (OllamaService.model env) bad) as [b |] eqn:Hn;
      [| reflexivity].
    apply name_startswith_some in Hn. destruct Hn as (name & Hname & _).
    now destruct (Hbad name).
Qed.

Lemma malformed_entry_hides_later_models_witness :
  fst (Probe.check_model_availability Sample.env_ok
         (Sample.probes_ok Sample.tags_malformed) []) = false.
Proof.
  apply (malformed_entry_hides_later_models Sample.env_ok
           (Sample.probes_ok Sample.tags_malformed) [] ""
           [("models", JList [JDict [("digest", JStr "abc")];
                              JDict [("name", JStr "llama3")]])]
           [] (JDict [("digest", JStr "abc")]) [JDict [("name", JStr "llama3")]]).
  - reflexivity.
  - reflexivity.
  - constructor.
  - intros name (fields & Heq & Hname). injection Heq as <-. discriminate.
Defined.

(** ** The health check *)

Lemma test_connection_log env http log :
  snd (Probe.test_connection env http log) = log ++ [Probe.tags_request env].
Proof. reflexivity. Qed.

Lemma test_connection_true env http log :
  fst (Probe.test_connection env http log) = true
  <-> exists msg body,
        http (length log) (Probe.tags_request env) = Reply 200 msg body.
Proof.
  unfold Probe.test_connection, Probe.send, Probe.or_false, Probe.forget.
  cbn [fst]. split.
  - destruct (http (length log) (Probe.tags_request env))
      as [e | status msg body]; cbn; [discriminate |].
    intros Hst. apply Z.eqb_eq in Hst. subst. eauto.
  - intros (msg & body & ->). reflexivity.
Qed.

(** X22. [check_service_health] probes the model only behind a
    connection that works.  When the tag listing is not answered with
    status 200 it sends that one request and reports the model as not
    available with empty model information; otherwise it sends three
    requests, the tag listing twice and then the model description.  It
    never reports a model as available on a failed connection, never sets
    the "error" key, and stamps the result with its one reading of the
    clock. *)
Theorem health_check_is_sequenced env http log reads :
  let '(health, log', reads') := check_service_health env http log reads in
  reads' = S reads
  /\ Health.timestamp health = wall_clock env reads
  /\ Health.error health = None
  /\ (Health.model_available health = true ->
      Health.ollama_connection health = true)
  /\ (Health.ollama_connection health = true
      <-> exists msg body,
            http (length log) (Probe.tags_request env) = Reply 200 msg body)
  /\ (Health.ollama_connection health = false ->
      log' = log ++ [Probe.tags_request env]
      /\ Health.model_available health = false
      /\ Health.model_info health = JDict [])
  /\ (Health.ollama_connection health = true ->
      log' = log ++ [Probe.tags_request env; Probe.tags_request env;
                     Probe.show_request env]
      /\ Health.model_available health
         = fst (Probe.check_model_availability env http
                  (log ++ [Probe.tags_request env]))
      /\ Health.model_info health
         = fst (Probe.get_model_info env http
                  (log ++ [Probe.tags_request env; Probe.tags_request env]))).
Proof.
  unfold check_service_health.
  pose proof (test_connection_true env http log) as Htrue.
  pose proof (test_connection_log env http log) as Hlog.
  destruct (Probe.test_connection env http log) as [connected log1].
  cbn [fst snd] in *. subst log1.
  destruct connected.
  - destruct (Probe.check_model_availability env http _) as [available log2] eqn:Ha.
    assert (Hlog2 : log2 = (log ++ [Probe.tags_request env])
                           ++ [Probe.tags_request env]).
    { apply (f_equal snd) in Ha. cbn in Ha. now rewrite <- Ha. }
    subst log2.
    destruct (Probe.get_model_info env http _) as [info log3] eqn:Hi.
    assert (Hlog3 : log3 = ((log ++ [Probe.tags_request env])
                            ++ [Probe.tags_request env])
                           ++ [Probe.show_request env]).
    { apply (f_equal snd) in Hi. cbn in Hi. now rewrite <- Hi. }
    subst log3. cbn.
    split; [reflexivity |]. split; [reflexivity |]. split; [reflexivity |].
    split; [intros _; reflexivity |]. split; [exact Htrue |].
    split; [intros H; discriminate |]. intros _.
    split; [now rewrite <- !app_assoc |]. split; [reflexivity |].
    apply (f_equal fst) in Hi. cbn [fst] in Hi. rewrite <- Hi.
    now rewrite <- app_assoc.
  - cbn.
    split; [reflexivity |]. split; [reflexivity |]. split; [reflexivity |].
    split; [intros H; discriminate |]. split; [exact Htrue |].
    split; [intros _; repeat split | intros H; discriminate].
Qed.

(** ** The requests of a run *)

Lemma chunk_request_configured env prompt : configured env (chunk_request env prompt).
Proof. repeat split. Qed.

(** X23. [summarize_text] only adds to the requests that were sent before
    it ran, and every request it adds is built from the configuration:
    the configured model and temperature, the generate URL, no streaming,
    no system prompt.  For a text of [n] chunks a run of either
    summarizer adds at most [n + 1] requests. *)
Theorem requests_follow_the_configuration env text w :
  let bound :=
    match chunk_by_sentences env text with
    | Ok chunks => S (length chunks)
    | Raise _ => 0%nat
    end in
  (exists added,
      posted (snd (Workflow.summarize_text env text w)) = posted w ++ added
      /\ Forall (configured env) added
      /\ (length added <= bound)%nat)
  /\ (exists added,
        posted (snd (Simple.summarize_text env text w)) = posted w ++ added
        /\ Forall (configured env) added
        /\ (length added <= bound)%nat).
Proof.
  intros bound.
  assert (Hnone : forall w0 : World,
             posted w0 = posted w ->
             exists added,
               posted w0 = posted w ++ added
               /\ Forall (configured env) added /\ (length added <= bound)%nat).
  { intros w0 H. exists []. rewrite app_nil_r.
    split; [exact H |]. split; [constructor | cbn; lia]. }
  assert (Hbatch : forall prompts,
             Forall (configured env) (map (chunk_request env) prompts)).
  { intros prompts. apply Forall_forall. intros p Hp.
    apply list_elem_of_fmap in Hp. destruct Hp as (prompt & -> & _).
    apply chunk_request_configured. }
  assert (Hrun : forall (chunks : list TextChunk.t)
                        (finish : Outcome string -> World -> World),
             chunk_by_sentences env text = Ok chunks ->
             chunks <> [] ->
             (forall o w0, posted (finish o w0) = posted w0) ->
             exists added,
               posted
                 (match chunk_summaries_of env chunks (tick w) with
                  | (Raise e, w2) => finish (Raise e) w2
                  | (Ok sums, w2) =>
                      match reduction env sums w2 with
                      | (o, w3) => finish o w3
                      end
                  end) = posted w ++ added
               /\ Forall (configured env) added
               /\ (length added <= bound)%nat).
  { intros chunks finish Hchunks Hne Hfinish. unfold bound. rewrite Hchunks.
    pose proof (chunk_summaries_world env chunks (tick w)) as Hw2.
    destruct (chunk_summaries_of env chunks (tick w)) as [[sums | e] w2];
      cbn [snd] in Hw2.
    - pose proof (reduction_world env sums w2) as Hw3.
      destruct (reduction env sums w2) as [o w3]. cbn [snd] in Hw3.
      rewrite Hfinish. subst w3 w2.
      destruct chunks as [| c [| c' cs]]; [congruence | |].
      + exists [final_request env (Py.join (Py.nl +:+ Py.nl) sums)].
        split; [reflexivity |].
        split; [repeat constructor | cbn; lia].
      + exists (map (chunk_request env) (Prompt.chunk_prompts (c :: c' :: cs))
                ++ [final_request env (Py.join (Py.nl +:+ Py.nl) sums)]).
        split; [cbn; now rewrite <- app_assoc |].
        split.
        * apply Forall_app. split; [apply Hbatch | repeat constructor].
        * rewrite length_app, length_map, chunk_prompts_length. cbn. lia.
    - rewrite Hfinish. subst w2.
      destruct chunks as [| c [| c' cs]]; [congruence | |].
      + exists []. rewrite app_nil_r.
        split; [reflexivity |]. split; [constructor | cbn; lia].
      + exists (map (chunk_request env) (Prompt.chunk_prompts (c :: c' :: cs))).
        split; [reflexivity |].
        split; [apply Hbatch |].
        rewrite length_map, chunk_prompts_length. cbn. lia. }
  split.
  - rewrite Workflow_steps.
    destruct (Py.truthy (Py.strip text)); [| now apply Hnone].
    destruct (chunk_by_sentences env text) as [[| c rest] | e] eqn:Hchunks;
      try (now apply Hnone).
    destruct (Hrun (c :: rest)
                (fun o w0 => match o with Ok _ => tick w0 | Raise _ => w0 end)
                eq_refl ltac:(discriminate)) as (added & Hadded & Hall & Hlen).
    { intros [fs | e] w0; reflexivity. }
    exists added. split; [| split; assumption].
    rewrite <- Hadded.
    destruct (chunk_summaries_of env (c :: rest) (tick w)) as [[sums | e] w2];
      [| reflexivity].
    destruct (reduction env sums w2) as [[fs | e] w3]; reflexivity.
  - rewrite Simple_steps.
    destruct (chunk_by_sentences env text) as [[| c rest] | e] eqn:Hchunks;
      try (now apply Hnone).
    destruct (Hrun (c :: rest) (fun _ w0 => tick w0)
                eq_refl ltac:(discriminate)) as (added & Hadded & Hall & Hlen).
    { intros o w0; reflexivity. }
    exists added. split; [| split; assumption].
    rewrite <- Hadded.
    destruct (chunk_summaries_of env (c :: rest) (tick w)) as [[sums | e] w2];
      [| reflexivity].
    destruct (reduction env sums w2) as [[fs | e] w3]; reflexivity.
Qed.
